(** * UKF_Odom.py: an unscented Kalman filter for a mecanum-drive robot

    A shallow embedding of [src/UKF_Odom.py] and the verification of its
    specification.

    Number model.  The program computes with IEEE doubles; here every
    [float] is a real number of the Standard Library ([R]), so that the
    algebraic content of each step (which sums are formed, about which
    point, with which constants) is stated exactly.  Python [int]s are [Z].

    Array model.  A one-dimensional [ndarray] is a [list R]; a
    two-dimensional one is the list of its rows.  A [(6,1)] column and a
    [(6,)] vector hold the same six numbers and are used interchangeably
    by the program (it transposes and broadcasts between them), so both
    are a list of six reals.  In-place assignment [a[i] = v] is a
    functional update that returns the new list.

    Effects.  The filter object is the record [UKF_Odometry.t]; a method
    that mutates [self] returns the new record.  A Python exception is
    the [Raise] case of [result]. *)

From Stdlib Require Import Reals Lra Lia List ZArith Bool.
Import ListNotations.

Local Open Scope R_scope.

(** ** Exceptions *)

Inductive exn : Type :=
| LinAlgError   (* numpy.linalg.LinAlgError *)
| ValueError.   (* shape mismatch in an assignment *)

Inductive result (A : Type) : Type :=
| Ok (a : A)
| Raise (e : exn).

Arguments Ok {A} a.
Arguments Raise {A} e.

Definition bind {A B : Type} (m : result A) (f : A -> result B) : result B :=
  match m with
  | Ok a => f a
  | Raise e => Raise e
  end.

Notation "x <- m ;; k" := (bind m (fun x => k))
  (at level 61, m at next level, right associativity).

(** ** Arrays *)

Definition vec : Type := list R.
Definition mat : Type := list vec.

(** [a[i] = x] on a list; an index past the end never occurs in the
    program (all shapes are fixed) and leaves the list as it is. *)
Fixpoint set_item {A : Type} (i : nat) (x : A) (l : list A) : list A :=
  match l, i with
  | [], _ => []
  | _ :: t, O => x :: t
  | h :: t, S j => h :: set_item j x t
  end.

Definition get (v : vec) (i : nat) : R := nth i v 0.
Definition row (A : mat) (i : nat) : vec := nth i A [].
Definition get2 (A : mat) (i j : nat) : R := get (row A i) j.

(** [A[i, j] = x] *)
Definition set_item2 (i j : nat) (x : R) (A : mat) : mat :=
  set_item i (set_item j x (row A i)) A.

(** A Python index: a negative one counts from the end. *)
Definition pyidx (len : nat) (i : Z) : nat :=
  Z.to_nat (if (i <? 0)%Z then Z.of_nat len + i else i).

Fixpoint map2 {A B C : Type} (f : A -> B -> C) (l : list A) (m : list B)
  : list C :=
  match l, m with
  | a :: l', b :: m' => f a b :: map2 f l' m'
  | _, _ => []
  end.

Definition shape (r c : nat) (A : mat) : Prop :=
  length A = r /\ Forall (fun v => length v = c) A.

Definition vadd : vec -> vec -> vec := map2 Rplus.
Definition vsub : vec -> vec -> vec := map2 Rminus.
Definition vscale (a : R) (v : vec) : vec := map (Rmult a) v.
Definition madd : mat -> mat -> mat := map2 vadd.
Definition msub : mat -> mat -> mat := map2 vsub.
Definition mscale (a : R) (A : mat) : mat := map (vscale a) A.

Definition rsum (v : vec) : R := fold_right Rplus 0 v.
Definition dot (u v : vec) : R := rsum (map2 Rmult u v).

(** [A[:, j]] *)
Definition col (A : mat) (j : nat) : vec := map (fun r => get r j) A.

Definition ncols (A : mat) : nat :=
  match A with
  | [] => O
  | r :: _ => length r
  end.

(** [A.T] *)
Definition transpose (A : mat) : mat := map (col A) (seq 0 (ncols A)).

(** [A @ B] for two matrices, and [A @ v] for a matrix and a vector. *)
Definition matmul (A B : mat) : mat :=
  map (fun r => map (fun j => dot r (col B j)) (seq 0 (ncols B))) A.
Definition matvec (A : mat) (v : vec) : vec := map (fun r => dot r v) A.

Module np.

Definition zeros (n : nat) : vec := repeat 0 n.
Definition ones (n : nat) : vec := repeat 1 n.
Definition zeros2 (r c : nat) : mat := repeat (zeros c) r.

Definition eye (n : nat) : mat :=
  map (fun i => map (fun j => if Nat.eqb i j then 1 else 0) (seq 0 n))
      (seq 0 n).

Definition outer (u v : vec) : mat :=
  map (fun a => map (fun b => a * b) v) u.

(** [np.sum(A, axis=0)] of an array with [c] columns: the sum of its
    rows. *)
Definition sum_axis0 (c : nat) (A : mat) : vec :=
  fold_left vadd A (zeros c).

(** [a[i:] = src] for a one-dimensional [a]: [src] must have as many
    entries as the slice, or one entry (broadcast); numpy raises
    [ValueError] otherwise. *)
Definition set_slice_from (i : nat) (src : vec) (a : vec) : result vec :=
  let len := (length a - i)%nat in
  if Nat.eqb (length src) len then Ok (firstn i a ++ src)
  else match src with
       | [x] => Ok (firstn i a ++ repeat x len)
       | _ => Raise ValueError
       end.

(** numpy's [flatten] of a two-dimensional array (row-major). *)
Definition flatten (A : mat) : vec := concat A.

Module linalg.

(** numpy delegates to LAPACK; the two routines are modelled by the
    functions of exact arithmetic they approximate. *)

(** [cholesky]: the lower factor, row by row (Cholesky-Banachiewicz);
    only the lower triangle of the input is read, as LAPACK does.
    [LinAlgError] when a pivot is not positive. *)
Fixpoint chol_offdiag (Lprev : mat) (arow : vec) (j : nat) (acc : vec)
  : vec :=
  match Lprev with
  | [] => acc
  | Lj :: rest =>
      chol_offdiag rest arow (S j)
        (acc ++ [(get arow j - dot acc Lj) / get Lj j])
  end.

Definition chol_row (n : nat) (Lprev : mat) (arow : vec) : result vec :=
  let i := length Lprev in
  let acc := chol_offdiag Lprev arow 0 [] in
  let d := get arow i - dot acc acc in
  if Rlt_dec 0 d
  then Ok (acc ++ [sqrt d] ++ zeros (n - i - 1))
  else Raise LinAlgError.

Fixpoint chol_rows (n : nat) (Lprev : mat) (todo : mat) : result mat :=
  match todo with
  | [] => Ok Lprev
  | arow :: rest =>
      r <- chol_row n Lprev arow ;;
      chol_rows n (Lprev ++ [r]) rest
  end.

Definition cholesky (A : mat) : result mat :=
  chol_rows (length A) [] A.

(** [inv]: the adjugate over the determinant; [LinAlgError] on a
    singular matrix. *)
Fixpoint remove_nth {A : Type} (i : nat) (l : list A) : list A :=
  match l, i with
  | [], _ => []
  | _ :: t, O => t
  | h :: t, S j => h :: remove_nth j t
  end.

Definition minor (A : mat) (i j : nat) : mat :=
  map (remove_nth j) (remove_nth i A).

Definition sign (i : nat) : R := if Nat.even i then 1 else -1.

Fixpoint det_n (n : nat) (A : mat) : R :=
  match n with
  | O => 1
  | S m =>
      rsum (map (fun j => sign j * get2 A 0 j * det_n m (minor A 0 j))
                (seq 0 (S m)))
  end.

Definition det (A : mat) : R := det_n (length A) A.

Definition adjugate (A : mat) : mat :=
  let n := length A in
  map (fun i =>
         map (fun j => sign (i + j) * det_n (n - 1) (minor A j i))
             (seq 0 n))
      (seq 0 n).

Definition inv (A : mat) : result mat :=
  if Req_dec_T (det A) 0
  then Raise LinAlgError
  else Ok (mscale (/ det A) (adjugate A)).

End linalg.

End np.

(** ** Messages *)

(** [sensor_msgs/Imu]: the fields the filter reads.  [stamp] is
    [header.stamp.to_sec()]; the covariance is the row-major 3x3 array
    of the message (nine entries). *)
Record Imu : Type := {
  stamp : R;
  angular_velocity_z : R;
  angular_velocity_covariance : list R
}.

(** [sensor_msgs/JointState]: the wheel speeds. *)
Record JointState : Type := { velocity : list R }.

(** [geometry_msgs/Twist]: [linear.x], [linear.y], [angular.z]. *)
Record Twist : Type := {
  linear_x : R;
  linear_y : R;
  angular_z : R
}.

(** [nav_msgs/Odometry] as [publish_odometry] fills it.  The orientation
    is kept as the homogeneous rotation matrix the program hands to
    [tf.transformations.quaternion_from_matrix]. *)
Record Odometry : Type := {
  header_stamp : R;
  position : R * R * R;
  orientation_matrix : mat;
  pose_covariance : list R;
  twist_linear_x : R;
  twist_linear_y : R;
  twist_angular_z : R;
  twist_covariance : list R
}.

(** ** The filter: [class UKF_Odometry] *)

Module UKF_Odometry.

(** The attributes of [self] that the filter reads and writes. *)
Record t : Type := {
  state : vec;
  state_cov : mat;
  prev_time : option R
}.

(** [__init__]: [state = np.zeros((6,1))], [state_cov = 0.1*np.eye(6)],
    [prev_time = None]. *)
Definition init : t := {|
  state := np.zeros 6;
  state_cov := mscale 0.1 (np.eye 6);
  prev_time := None
|}.

(** What one call of [callback] does besides changing [self]. *)
Inductive outcome : Type :=
| NoEstimate                 (* the bare [return] of the first call *)
| Published (m : Odometry)   (* [self.odom_pub.publish(message)] *)
| Raised (e : exn).          (* an exception left the callback *)

(** *** [predict] *)

Definition predict (self : t) (st : vec) (cmd_vel : Twist) (dt : R)
  : vec * mat :=
  let vx := linear_x cmd_vel in
  let vy := linear_y cmd_vel in
  let omega := angular_z cmd_vel in
  let Gx : mat :=
    [ [1; 0; - (vx * sin (get st 2) + vy * cos (get st 2)) * dt;
       dt * cos (get st 2); - dt * sin (get st 2); 0];
      [0; 1; (vx * cos (get st 2) - vy * sin (get st 2)) * dt;
       dt * sin (get st 2); dt * cos (get st 2); 0];
      [0; 0; 1; 0; 0; dt];
      [0; 0; 0; 1; 0; 0];
      [0; 0; 0; 0; 1; 0];
      [0; 0; 0; 0; 0; 1] ] in
  let predicted_state := np.zeros 6 in
  let predicted_state :=
    set_item 0 (get st 0 + (vx * cos (get st 2) - vy * sin (get st 2)) * dt)
             predicted_state in
  let predicted_state :=
    set_item 1 (get st 1 + (vy * cos (get st 2) + vx * sin (get st 2)) * dt)
             predicted_state in
  let predicted_state :=
    set_item 2 (get st 2 + omega * dt) predicted_state in
  let predicted_state := set_item 3 vx predicted_state in
  let predicted_state := set_item 4 vy predicted_state in
  let predicted_state := set_item 5 omega predicted_state in
  let EKF_pred_cov :=
    matmul (matmul Gx (state_cov self)) (transpose Gx) in
  (predicted_state, EKF_pred_cov).

(** *** [innovation] *)

Definition wheel_radius : R := 0.0762.
Definition wheel_pair_separation : R := 0.488.
Definition wheel_separation : R := 0.44715.
Definition wheel_width : R := 0.05.

Definition b : R := 0.5 * (wheel_separation + wheel_width).
Definition a : R := 0.5 * (wheel_radius + wheel_pair_separation).
Definition roller_wheel_effect : R := (a + b) / wheel_radius.

(** [C[r:, j] = x]: column [j] of the rows from [r] on. *)
Definition set_col_from (r j : nat) (x : R) (A : mat) : mat :=
  firstn r A ++ map (set_item j x) (skipn r A).

(** The measurement model, built by the same assignments. *)
Definition C : mat :=
  let C := np.zeros2 5 6 in
  let C := set_item2 0 5 1 C in
  let C := set_col_from 1 3 (1 / wheel_radius) C in
  let C := set_col_from 1 4 (1 / wheel_radius) C in
  let C := set_col_from 1 5 roller_wheel_effect C in
  let C := set_item2 1 4 (-1 * get2 C 1 4) C in
  let C := set_item2 4 4 (-1 * get2 C 4 4) C in
  let C := set_item2 1 5 (-1 * get2 C 1 5) C in
  let C := set_item2 3 5 (-1 * get2 C 3 5) C in
  C.

Definition epsilon : R := 1e-6.

Definition innovation (pred_state : vec) (pred_cov : mat) (z : vec)
           (z_cov : mat) : result (vec * mat) :=
  let innovation_cov :=
    madd (madd (matmul (matmul C pred_cov) (transpose C)) z_cov)
         (mscale epsilon (np.eye 5)) in
  Sinv <- np.linalg.inv innovation_cov ;;
  let K := matmul (matmul pred_cov (transpose C)) Sinv in
  let state := vadd pred_state (matvec K (vsub z (matvec C pred_state))) in
  let state_cov :=
    madd (matmul (msub (np.eye 6) (matmul K C)) pred_cov)
         (mscale epsilon (np.eye 6)) in
  Ok (state, state_cov).

(** *** [publish_odometry] *)

(** Indices into the 6x6 arrays; [-1] is the last row or column. *)
Definition ix (i : Z) : nat := pyidx 6 i.

Definition publish_odometry (self : t) (current_t : R) : Odometry :=
  let orientation_matrix : mat :=
    [ [cos (get (state self) 2); - sin (get (state self) 2); 0; 0];
      [sin (get (state self) 2); cos (get (state self) 2); 0; 0];
      [0; 0; 1; 0];
      [0; 0; 0; 1] ] in
  let P := state_cov self in
  let pose_cov := np.zeros2 6 6 in
  let pose_cov := set_item2 (ix 0) (ix 0) (get2 P (ix 0) (ix 0)) pose_cov in
  let pose_cov := set_item2 (ix 0) (ix 1) (get2 P (ix 0) (ix 1)) pose_cov in
  let pose_cov := set_item2 (ix 1) (ix 0) (get2 P (ix 0) (ix 1)) pose_cov in
  let pose_cov := set_item2 (ix 1) (ix 1) (get2 P (ix 1) (ix 1)) pose_cov in
  let pose_cov :=
    set_item2 (ix 0) (ix (-1)) (get2 P (ix 0) (ix 2)) pose_cov in
  let pose_cov :=
    set_item2 (ix (-1)) (ix 0) (get2 P (ix 0) (ix 2)) pose_cov in
  let pose_cov :=
    set_item2 (ix 1) (ix (-1)) (get2 P (ix 1) (ix 2)) pose_cov in
  let pose_cov :=
    set_item2 (ix (-1)) (ix 1) (get2 P (ix 1) (ix 2)) pose_cov in
  let pose_cov :=
    set_item2 (ix (-1)) (ix (-1)) (get2 P (ix 2) (ix 2)) pose_cov in
  let twist_cov := np.zeros2 6 6 in
  let twist_cov :=
    set_item2 (ix 0) (ix 0) (get2 P (ix 3) (ix 3)) twist_cov in
  let twist_cov :=
    set_item2 (ix 1) (ix 1) (get2 P (ix 4) (ix 4)) twist_cov in
  let twist_cov :=
    set_item2 (ix (-1)) (ix (-1)) (get2 P (ix 5) (ix 5)) twist_cov in
  let twist_cov :=
    set_item2 (ix 0) (ix (-1)) (get2 P (ix (-1)) (ix 3)) twist_cov in
  let twist_cov :=
    set_item2 (ix (-1)) (ix 0) (get2 P (ix (-1)) (ix 3)) twist_cov in
  let twist_cov :=
    set_item2 (ix 1) (ix (-1)) (get2 P (ix 4) (ix (-1))) twist_cov in
  let twist_cov :=
    set_item2 (ix (-1)) (ix 1) (get2 P (ix (-1)) (ix 4)) twist_cov in
  {| header_stamp := current_t;
     position := (get (state self) 0, get (state self) 1, 0);
     orientation_matrix := orientation_matrix;
     pose_covariance := np.flatten pose_cov;
     twist_linear_x := get (state self) 3;
     twist_linear_y := get (state self) 4;
     twist_angular_z := get (state self) 5;
     twist_covariance := np.flatten twist_cov |}.

(** *** [callback] *)

(** The constants of the unscented transform ([alpha] and [beta] are
    assigned by the program and never read). *)
Definition n : Z := 6.
Definition k : Z := 3.
Definition lambda_value : Z := 7 - n.

Definition range (m : Z) : list nat := seq 0 (Z.to_nat m).

(** Lines 48-50: the measurement vector. *)
Definition measurement_of (imu_data : Imu) (wheel_encoder_data : JointState)
  : result vec :=
  let measurement := np.zeros 5 in
  measurement <-
    np.set_slice_from 1 (velocity wheel_encoder_data) measurement ;;
  Ok (set_item 0 (angular_velocity_z imu_data) measurement).

(** Lines 51-52: the measurement covariance. *)
Definition z_cov_of (imu_data : Imu) : mat :=
  let z_cov := mscale 3 (np.eye 5) in
  set_item2 0 0 (get (angular_velocity_covariance imu_data) 8) z_cov.

(** Lines 67-78: the sigma points from the state and the Cholesky
    factor of its covariance. *)
Definition sigma_points (st : vec) (cov_sqrt : mat) : mat :=
  let sigma := np.zeros2 (Z.to_nat (2 * n + 1)) (Z.to_nat n) in
  let sigma := set_item 0 st sigma in
  let sigma :=
    fold_left
      (fun sigma i =>
         set_item (i + 1)
           (vadd st (vscale (sqrt (IZR ((n - k) + lambda_value)))
                            (col cov_sqrt i)))
           sigma)
      (range n) sigma in
  fold_left
    (fun sigma i =>
       set_item (Z.to_nat n + i + 1)
         (vsub st (vscale (sqrt (IZR ((n - k) + lambda_value)))
                          (col cov_sqrt i)))
         sigma)
    (range n) sigma.

(** Lines 80-84: the two weight vectors. *)
Definition weights : vec * vec :=
  let mean_weights :=
    vscale (1 / IZR (2 * (n + lambda_value)))
           (np.ones (Z.to_nat (2 * n + 1))) in
  let cov_weights := mean_weights in
  let mean_weights :=
    set_item 0 (IZR lambda_value / IZR (lambda_value + n)) mean_weights in
  let cov_weights :=
    set_item 0 (IZR lambda_value / IZR (lambda_value + n)) cov_weights in
  (mean_weights, cov_weights).

Definition mean_weights : vec := fst weights.
Definition cov_weights : vec := snd weights.

(** Lines 85-102: propagation of every sigma point and recombination.
    The loop keeps [weighted_pred] (an array, one row written per
    iteration) and [weighted_cov_pred] (a list, appended to). *)
Definition recombine (self : t) (sigma : mat) (cmd_vel : Twist) (dt : R)
  : vec * mat :=
  let weighted_pred := np.zeros2 (Z.to_nat (2 * n + 1)) (Z.to_nat n) in
  let weighted_cov_pred : list mat := [] in
  let mean_pred := fst (predict self (state self) cmd_vel dt) in
  let '(weighted_pred, weighted_cov_pred) :=
    fold_left
      (fun '(weighted_pred, weighted_cov_pred) i =>
         let pred := fst (predict self (row sigma i) cmd_vel dt) in
         let weighted_pred :=
           set_item i (vscale (get mean_weights i) pred) weighted_pred in
         let distance := vsub mean_pred pred in
         let A := np.outer distance distance in
         (weighted_pred,
          weighted_cov_pred ++ [mscale (get cov_weights i) A]))
      (seq 0 (length sigma))
      (weighted_pred, weighted_cov_pred) in
  let pred_cov := fold_left madd weighted_cov_pred (np.zeros2 6 6) in
  let pred_state := np.sum_axis0 (Z.to_nat n) weighted_pred in
  (pred_state, pred_cov).

Definition set_prev_time (self : t) (now : R) : t :=
  {| state := state self;
     state_cov := state_cov self;
     prev_time := Some now |}.

(** Lines 48-103 of [callback], for a call that has a previous
    timestamp: everything between the update of [prev_time] and the
    commit.  [self] is read, not written. *)
Definition posterior (self : t) (imu_data : Imu)
           (wheel_encoder_data : JointState) (cmd_vel : Twist) (dt : R)
  : result (vec * mat) :=
  measurement <- measurement_of imu_data wheel_encoder_data ;;
  let z_cov := z_cov_of imu_data in
  let '(EKF_pred, EKF_pred_cov) := predict self (state self) cmd_vel dt in
  cov_sqrt <- np.linalg.cholesky (state_cov self) ;;
  let sigma := sigma_points (state self) cov_sqrt in
  let '(pred_state, pred_cov) := recombine self sigma cmd_vel dt in
  innovation pred_state pred_cov measurement z_cov.

Definition callback (self : t) (imu_data : Imu)
           (wheel_encoder_data : JointState) (cmd_vel : Twist)
  : t * outcome :=
  let current_t_sec := stamp imu_data in
  match prev_time self with
  | None => (set_prev_time self current_t_sec, NoEstimate)
  | Some prev =>
      let dt := current_t_sec - prev in
      let self := set_prev_time self current_t_sec in
      match posterior self imu_data wheel_encoder_data cmd_vel dt with
      | Raise e => (self, Raised e)
      | Ok (UKF_posterior, UKF_cov_posterior) =>
          let self := {| state := UKF_posterior;
                         state_cov := UKF_cov_posterior;
                         prev_time := prev_time self |} in
          (self, Published (publish_odometry self current_t_sec))
      end
  end.

End UKF_Odometry.

Import UKF_Odometry.

(** * Specification vocabulary *)

(** The definitions of this part are not in the program; they name what
    the statements below are about. *)

(** [diag(d0, .., d4)] and [c I] of size 6. *)
Definition diag5 (d0 d1 d2 d3 d4 : R) : mat :=
  [ [d0; 0; 0; 0; 0];
    [0; d1; 0; 0; 0];
    [0; 0; d2; 0; 0];
    [0; 0; 0; d3; 0];
    [0; 0; 0; 0; d4] ].

Definition scaled_eye6 (c : R) : mat :=
  [ [c; 0; 0; 0; 0; 0]; [0; c; 0; 0; 0; 0]; [0; 0; c; 0; 0; 0];
    [0; 0; 0; c; 0; 0]; [0; 0; 0; 0; c; 0]; [0; 0; 0; 0; 0; c] ].

(** The propagated sigma points [f_0 .. f_12]. *)
Definition propagated (self : t) (sigma : mat) (cmd_vel : Twist) (dt : R)
  : mat :=
  map (fun r => fst (predict self r cmd_vel dt)) sigma.

(** [sum_i w[i] * point[i]] *)
Definition weighted_mean (w : vec) (pts : mat) : vec :=
  np.sum_axis0 6 (map2 vscale w pts).

(** [sum_i w[i] * (m - point[i]) (m - point[i])^T] *)
Definition weighted_cov (w : vec) (m : vec) (pts : mat) : mat :=
  fold_left madd
    (map2 (fun wi f => mscale wi (np.outer (vsub m f) (vsub m f))) w pts)
    (np.zeros2 6 6).

(** A 6x6 matrix cut down to its pose block (rows and columns 0..2). *)
Definition pose_block (P : mat) : mat :=
  [ [get2 P 0 0; get2 P 0 1; get2 P 0 2; 0; 0; 0];
    [get2 P 1 0; get2 P 1 1; get2 P 1 2; 0; 0; 0];
    [get2 P 2 0; get2 P 2 1; get2 P 2 2; 0; 0; 0];
    [0; 0; 0; 0; 0; 0];
    [0; 0; 0; 0; 0; 0];
    [0; 0; 0; 0; 0; 0] ].

(** The measurement matrix, written out. *)
Definition C_matrix : mat :=
  [ [0; 0; 0; 0; 0; 1];
    [0; 0; 0; 1 / wheel_radius; - (1 / wheel_radius); - roller_wheel_effect];
    [0; 0; 0; 1 / wheel_radius; 1 / wheel_radius; roller_wheel_effect];
    [0; 0; 0; 1 / wheel_radius; 1 / wheel_radius; - roller_wheel_effect];
    [0; 0; 0; 1 / wheel_radius; - (1 / wheel_radius); roller_wheel_effect] ].

(** The regularised innovation covariance [C P C^T + R + eps I]. *)
Definition innovation_cov (pred_cov z_cov : mat) : mat :=
  madd (madd (matmul (matmul C pred_cov) (transpose C)) z_cov)
       (mscale epsilon (np.eye 5)).

(** The filter object that a step with a previous timestamp leaves
    behind when nothing raises: the recombined mean, the recombined
    covariance plus the regulariser, and the new timestamp. *)
Definition committed (self : t) (L : mat) (cmd_vel : Twist) (now dt : R)
  : t :=
  let pred := recombine self (sigma_points (state self) L) cmd_vel dt in
  {| state := fst pred;
     state_cov := madd (snd pred) (mscale epsilon (np.eye 6));
     prev_time := Some now |}.

(** A run: the filter after its first callback at time 0, then a second
    sample. *)
Definition imu_at (now : R) : Imu :=
  {| stamp := now;
     angular_velocity_z := 0;
     angular_velocity_covariance := [0; 0; 0; 0; 0; 0; 0; 0; 0.01] |}.
Definition wheels_still : JointState := {| velocity := [0; 0; 0; 0] |}.
Definition cmd_forward : Twist :=
  {| linear_x := 1; linear_y := 0; angular_z := 0 |}.
Definition started : t := set_prev_time init 0.

(** ** Vocabulary of the further properties *)

(** The wheel sample fits the slice [measurement[1:]]: four speeds, or
    one that numpy broadcasts. *)
Definition wheel_sample_fits (wheel_encoder_data : JointState) : Prop :=
  length (velocity wheel_encoder_data) = 4%nat \/
  length (velocity wheel_encoder_data) = 1%nat.

(** [P] equals its transpose, entry by entry. *)
Definition symmetric (P : mat) : Prop :=
  forall i j : nat, get2 P i j = get2 P j i.

(** What the filter needs to hold for a step to go through: a state of
    six entries and a symmetric 6x6 covariance that has a Cholesky
    factor. *)
Definition well_formed (self : t) : Prop :=
  length (state self) = 6%nat /\
  shape 6 6 (state_cov self) /\
  symmetric (state_cov self) /\
  exists L : mat, np.linalg.cholesky (state_cov self) = Ok L.

(** The node: the synchroniser calls [callback] once per triple, on the
    object that the previous call left (an exception in a callback is
    logged by the subscriber thread and the node goes on). *)
Definition sample : Type := (Imu * JointState * Twist)%type.

Definition feed (self : t) (s : sample) : t :=
  fst (callback self (fst (fst s)) (snd (fst s)) (snd s)).

Definition run (inputs : list sample) : t := fold_left feed inputs init.

(** * Verification *)

(** ** Tactics for fixed-size arrays *)

(** Evaluate the list structure of a term and leave the arithmetic of
    the reals alone. *)
Ltac arr_eval :=
  cbv -[Rplus Rmult Rminus Ropp Rdiv Rinv IZR sqrt cos sin
        Rlt_dec Req_dec_T epsilon wheel_radius roller_wheel_effect].

Ltac arr_eval_in H :=
  cbv -[Rplus Rmult Rminus Ropp Rdiv Rinv IZR sqrt cos sin
        Rlt_dec Req_dec_T epsilon wheel_radius roller_wheel_effect] in H.

(** Entrywise equality of two explicit vectors or matrices. *)
Ltac vec_eq tac :=
  repeat lazymatch goal with
    | |- _ :: _ = _ :: _ => apply f_equal2; [ tac | ]
    | |- @nil _ = @nil _ => reflexivity
    end.

Ltac mat_eq tac :=
  repeat lazymatch goal with
    | |- _ :: _ = _ :: _ => apply f_equal2; [ vec_eq tac | ]
    | |- @nil _ = @nil _ => reflexivity
    end.

Lemma length_S_inv {A : Type} (l : list A) (m : nat) :
  length l = S m -> exists x t, l = x :: t /\ length t = m.
Proof.
  destruct l as [|x t]; simpl; intros H; [discriminate|].
  injection H as H. exists x, t. auto.
Qed.

Lemma length_0_inv {A : Type} (l : list A) : length l = O -> l = [].
Proof. destruct l; simpl; [reflexivity|discriminate]. Qed.

(** Replace a list of known length by its entries. *)
Ltac explode_list H :=
  repeat (let x := fresh "x" in
          let t := fresh "t" in
          let E := fresh "E" in
          apply length_S_inv in H; destruct H as (x & t & E & H); subst);
  apply length_0_inv in H; subst.

Ltac explode_shape H :=
  let Hl := fresh "Hl" in
  let Hf := fresh "Hf" in
  destruct H as [Hl Hf];
  explode_list Hl;
  repeat match goal with
         | H0 : Forall _ (_ :: _) |- _ =>
             let H1 := fresh "H" in
             let H2 := fresh "H" in
             apply Forall_cons_iff in H0; destruct H0 as [H1 H2];
             explode_list H1
         | H0 : Forall _ [] |- _ => clear H0
         end.

Ltac shape_tac := split; [reflexivity | repeat constructor].

(** ** Constants of the unscented transform *)

Lemma sqrt_4 : sqrt 4 = 2.
Proof.
  replace 4 with (2 * 2) by lra.
  apply sqrt_square; lra.
Qed.

Lemma ukf_constants :
  n = 6%Z /\ k = 3%Z /\ lambda_value = 1%Z /\
  sqrt (IZR ((n - k) + lambda_value)) = 2.
Proof.
  repeat split; try reflexivity.
  unfold n, k, lambda_value; simpl. exact sqrt_4.
Qed.

(** The thirteen sigma points, read off the three assignments. *)
Lemma sigma_points_rows (x : vec) (L : mat) :
  sigma_points x L =
  x :: map (fun i => vadd x (vscale 2 (col L i))) (seq 0 6)
    ++ map (fun i => vsub x (vscale 2 (col L i))) (seq 0 6).
Proof.
  unfold sigma_points, range, n, k, lambda_value; simpl.
  rewrite sqrt_4. reflexivity.
Qed.

(** ** C4: the weights *)

(** C4. Both weight vectors have thirteen entries; entry 0 is
    [lambda/(lambda+n) = 1/7] and each of the other twelve is
    [1/(2(n+lambda)) = 1/14]. *)
Theorem weights_values :
  mean_weights = 1 / 7 :: repeat (1 / 14) 12 /\
  cov_weights = 1 / 7 :: repeat (1 / 14) 12 /\
  length mean_weights = 13%nat /\
  length cov_weights = 13%nat /\
  IZR lambda_value / IZR (lambda_value + n) = 1 / 7 /\
  1 / IZR (2 * (n + lambda_value)) = 1 / 14.
Proof.
  unfold mean_weights, cov_weights, weights, lambda_value, n; simpl.
  repeat split; try reflexivity; vec_eq ltac:(lra).
Qed.

(** ** C6: the motion model *)

(** C6. [predict] integrates position and heading from the heading of
    the input state, overwrites the three velocities by the command, and
    its first result is the same whatever the filter object holds. *)
Theorem predict_motion_model (self : t) (x y th vx vy om : R)
        (cmd_vel : Twist) (dt : R) :
  fst (predict self [x; y; th; vx; vy; om] cmd_vel dt) =
  [ x + (linear_x cmd_vel * cos th - linear_y cmd_vel * sin th) * dt;
    y + (linear_y cmd_vel * cos th + linear_x cmd_vel * sin th) * dt;
    th + angular_z cmd_vel * dt;
    linear_x cmd_vel;
    linear_y cmd_vel;
    angular_z cmd_vel ] /\
  (forall self' : t,
      fst (predict self' [x; y; th; vx; vy; om] cmd_vel dt) =
      fst (predict self [x; y; th; vx; vy; om] cmd_vel dt)).
Proof.
  split; [reflexivity | intros self'; reflexivity].
Qed.

(** [predict] on any list, through [get]. *)
Lemma predict_fst (self : t) (st : vec) (cmd_vel : Twist) (dt : R) :
  fst (predict self st cmd_vel dt) =
  [ get st 0 +
      (linear_x cmd_vel * cos (get st 2) - linear_y cmd_vel * sin (get st 2))
      * dt;
    get st 1 +
      (linear_y cmd_vel * cos (get st 2) + linear_x cmd_vel * sin (get st 2))
      * dt;
    get st 2 + angular_z cmd_vel * dt;
    linear_x cmd_vel;
    linear_y cmd_vel;
    angular_z cmd_vel ].
Proof. reflexivity. Qed.

(** ** C10: the measurement covariance *)

Lemma z_cov_of_diag (imu_data : Imu) :
  z_cov_of imu_data =
  diag5 (get (angular_velocity_covariance imu_data) 8) 3 3 3 3.
Proof.
  unfold z_cov_of.
  generalize (get (angular_velocity_covariance imu_data) 8); intros v.
  arr_eval. mat_eq ltac:(lra).
Qed.

(** C10. The covariance handed to [innovation] is
    [diag(v, 3, 3, 3, 3)], [v] being entry 8 of the IMU's angular
    velocity covariance; nothing else of the inputs enters it. *)
Theorem measurement_cov_diag (self : t) (imu_data : Imu)
        (wheel_encoder_data : JointState) (cmd_vel : Twist) (dt : R) :
  z_cov_of imu_data =
    diag5 (get (angular_velocity_covariance imu_data) 8) 3 3 3 3 /\
  posterior self imu_data wheel_encoder_data cmd_vel dt =
    (measurement <- measurement_of imu_data wheel_encoder_data ;;
     cov_sqrt <- np.linalg.cholesky (state_cov self) ;;
     let pred :=
       recombine self (sigma_points (state self) cov_sqrt) cmd_vel dt in
     innovation (fst pred) (snd pred) measurement
       (diag5 (get (angular_velocity_covariance imu_data) 8) 3 3 3 3)).
Proof.
  split; [apply z_cov_of_diag|].
  unfold posterior. rewrite z_cov_of_diag.
  destruct (measurement_of imu_data wheel_encoder_data) as [z|e];
    [simpl | reflexivity].
  destruct (np.linalg.cholesky (state_cov self)) as [L|e];
    [simpl | reflexivity].
  destruct (recombine self (sigma_points (state self) L) cmd_vel dt).
  reflexivity.
Qed.

(** ** Cholesky factor of a multiple of the identity *)

Lemma mscale_eye6 (c : R) : mscale c (np.eye 6) = scaled_eye6 c.
Proof. arr_eval. mat_eq ltac:(ring). Qed.

Lemma chol_row_ok (m : nat) (Lprev : mat) (arow acc : vec) (d : R) :
  np.linalg.chol_offdiag Lprev arow 0 [] = acc ->
  get arow (length Lprev) - dot acc acc = d ->
  0 < d ->
  np.linalg.chol_row m Lprev arow =
  Ok (acc ++ [sqrt d] ++ np.zeros (m - length Lprev - 1)).
Proof.
  intros Hacc Hd Hpos. unfold np.linalg.chol_row.
  rewrite Hacc, Hd.
  destruct (Rlt_dec 0 d) as [_|Hn]; [reflexivity | contradiction].
Qed.

Lemma chol_rows_step (m : nat) (Lprev : mat) (arow r : vec) (rest : mat) :
  np.linalg.chol_row m Lprev arow = Ok r ->
  np.linalg.chol_rows m Lprev (arow :: rest) =
  np.linalg.chol_rows m (Lprev ++ [r]) rest.
Proof. intros H. simpl. rewrite H. reflexivity. Qed.

Ltac chol_step acc0 d0 :=
  erewrite chol_rows_step;
  [ | apply chol_row_ok with (acc := acc0) (d := d0);
      [ arr_eval; vec_eq ltac:(unfold Rdiv; ring)
      | arr_eval; ring
      | assumption ] ];
  simpl app.

Lemma cholesky_scaled_eye6 (c : R) :
  0 < c ->
  np.linalg.cholesky (scaled_eye6 c) = Ok (scaled_eye6 (sqrt c)).
Proof.
  intros Hc. unfold np.linalg.cholesky, scaled_eye6. simpl length.
  chol_step (@nil R) c.
  chol_step [0] c.
  chol_step [0; 0] c.
  chol_step [0; 0; 0] c.
  chol_step [0; 0; 0; 0] c.
  chol_step [0; 0; 0; 0; 0] c.
  reflexivity.
Qed.
(** ** The inverse of a 5x5 matrix *)

Lemma adjugate_shape5 (A : mat) :
  shape 5 5 A -> shape 5 5 (np.linalg.adjugate A).
Proof. intros H. explode_shape H. shape_tac. Qed.

Lemma matmul_adjugate5 (A : mat) :
  shape 5 5 A ->
  matmul A (np.linalg.adjugate A) = mscale (np.linalg.det A) (np.eye 5).
Proof.
  intros H. explode_shape H. arr_eval. mat_eq ltac:(ring).
Qed.

Lemma adjugate_matmul5 (A : mat) :
  shape 5 5 A ->
  matmul (np.linalg.adjugate A) A = mscale (np.linalg.det A) (np.eye 5).
Proof.
  intros H. explode_shape H. arr_eval. mat_eq ltac:(ring).
Qed.

Lemma matmul_mscale_r5 (c : R) (A B : mat) :
  shape 5 5 A -> shape 5 5 B ->
  matmul A (mscale c B) = mscale c (matmul A B).
Proof.
  intros HA HB. explode_shape HA. explode_shape HB.
  arr_eval. mat_eq ltac:(ring).
Qed.

Lemma matmul_mscale_l5 (c : R) (A B : mat) :
  shape 5 5 A -> shape 5 5 B ->
  matmul (mscale c A) B = mscale c (matmul A B).
Proof.
  intros HA HB. explode_shape HA. explode_shape HB.
  arr_eval. mat_eq ltac:(ring).
Qed.

Lemma mscale_inv_eye5 (d : R) :
  d <> 0 -> mscale (/ d) (mscale d (np.eye 5)) = np.eye 5.
Proof.
  intros Hd. arr_eval. mat_eq ltac:(field; exact Hd).
Qed.

Lemma mscale_shape5 (c : R) (A : mat) : shape 5 5 A -> shape 5 5 (mscale c A).
Proof. intros H. explode_shape H. shape_tac. Qed.

(** On an invertible 5x5 matrix [inv] returns its two-sided inverse. *)
Lemma inv5_correct (A : mat) :
  shape 5 5 A -> np.linalg.det A <> 0 ->
  exists B : mat,
    np.linalg.inv A = Ok B /\ shape 5 5 B /\
    matmul A B = np.eye 5 /\ matmul B A = np.eye 5.
Proof.
  intros HA Hd.
  exists (mscale (/ np.linalg.det A) (np.linalg.adjugate A)).
  pose proof (adjugate_shape5 A HA) as Hadj.
  repeat split.
  - unfold np.linalg.inv.
    destruct (Req_dec_T (np.linalg.det A) 0) as [E|_];
      [contradiction | reflexivity].
  - apply mscale_shape5; assumption.
  - apply mscale_shape5; assumption.
  - rewrite matmul_mscale_r5, matmul_adjugate5 by assumption.
    apply mscale_inv_eye5; assumption.
  - rewrite matmul_mscale_l5, adjugate_matmul5 by assumption.
    apply mscale_inv_eye5; assumption.
Qed.

Lemma inv5_singular (A : mat) :
  np.linalg.det A = 0 -> np.linalg.inv A = Raise LinAlgError.
Proof.
  intros Hd. unfold np.linalg.inv.
  destruct (Req_dec_T (np.linalg.det A) 0) as [_|N];
    [reflexivity | contradiction].
Qed.

(** ** The measurement matrix *)

Lemma C_explicit : C = C_matrix.
Proof.
  unfold C_matrix, C.
  generalize (1 / wheel_radius) roller_wheel_effect. intros u v.
  arr_eval. mat_eq ltac:(ring).
Qed.

(** ** Recombination and the covariance it yields *)

(** The loop of lines 90-95 forms the weighted mean of the propagated
    points, and the weighted sum of outer products about [mean_pred],
    the propagation of the prior state. *)
Lemma recombine_sums (self : t) (sigma : mat) (cmd_vel : Twist) (dt : R) :
  length sigma = 13%nat ->
  recombine self sigma cmd_vel dt =
  (weighted_mean mean_weights (propagated self sigma cmd_vel dt),
   weighted_cov cov_weights (fst (predict self (state self) cmd_vel dt))
                (propagated self sigma cmd_vel dt)).
Proof.
  intros H. explode_list H.
  reflexivity.
Qed.

(** Every propagated point carries the commanded velocity in its last
    three entries, and so does the propagated state. *)
Lemma propagated_rows (self : t) (sigma : mat) (cmd_vel : Twist) (dt : R) :
  propagated self sigma cmd_vel dt =
  map (fun p : vec =>
         [get p 0; get p 1; get p 2;
          linear_x cmd_vel; linear_y cmd_vel; angular_z cmd_vel])
      (propagated self sigma cmd_vel dt).
Proof.
  unfold propagated. rewrite map_map. apply map_ext. intros r.
  rewrite predict_fst. reflexivity.
Qed.

Lemma weighted_cov_pose_block (pts : mat) (m0 : vec) (vx vy om : R) :
  length pts = 13%nat ->
  let f := fun p : vec => [get p 0; get p 1; get p 2; vx; vy; om] in
  weighted_cov cov_weights (f m0) (map f pts) =
  pose_block (weighted_cov cov_weights (f m0) (map f pts)).
Proof.
  intros H f. explode_list H. subst f.
  repeat match goal with
         | r : vec |- _ =>
             generalize (get r 0) (get r 1) (get r 2); intros ? ? ?; clear r
         end.
  arr_eval.
  mat_eq ltac:(first [reflexivity | field]).
Qed.

Lemma recombine_pose_block (self : t) (sigma : mat) (cmd_vel : Twist)
      (dt : R) :
  length sigma = 13%nat ->
  snd (recombine self sigma cmd_vel dt) =
  pose_block (snd (recombine self sigma cmd_vel dt)).
Proof.
  intros H. rewrite recombine_sums by exact H. cbn [snd].
  rewrite propagated_rows, predict_fst.
  apply (weighted_cov_pose_block _
           [get (state self) 0 +
              (linear_x cmd_vel * cos (get (state self) 2) -
               linear_y cmd_vel * sin (get (state self) 2)) * dt;
            get (state self) 1 +
              (linear_y cmd_vel * cos (get (state self) 2) +
               linear_x cmd_vel * sin (get (state self) 2)) * dt;
            get (state self) 2 + angular_z cmd_vel * dt]).
  unfold propagated. rewrite length_map. exact H.
Qed.

Lemma recombine_mean_length (self : t) (sigma : mat) (cmd_vel : Twist)
      (dt : R) :
  length sigma = 13%nat ->
  length (fst (recombine self sigma cmd_vel dt)) = 6%nat.
Proof.
  intros H. explode_list H. reflexivity.
Qed.

Lemma sigma_points_length (x : vec) (L : mat) :
  length (sigma_points x L) = 13%nat.
Proof. rewrite sigma_points_rows. reflexivity. Qed.

(** *** The update on a covariance without velocity block *)

Lemma det_diag5 (d0 d1 d2 d3 d4 : R) :
  np.linalg.det (diag5 d0 d1 d2 d3 d4) = d0 * d1 * d2 * d3 * d4.
Proof. arr_eval. ring. Qed.

Lemma innovation_cov_pose_block (P : mat) (v : R) :
  innovation_cov (pose_block P) (diag5 v 3 3 3 3) =
  diag5 (v + epsilon) (3 + epsilon) (3 + epsilon) (3 + epsilon)
        (3 + epsilon).
Proof.
  unfold innovation_cov, pose_block. rewrite C_explicit. unfold C_matrix.
  generalize (1 / wheel_radius) roller_wheel_effect. intros u rho.
  generalize (get2 P). intros p.
  arr_eval. mat_eq ltac:(ring).
Qed.

Lemma gain_numerator_pose_block (P : mat) :
  matmul (pose_block P) (transpose C) = np.zeros2 6 5.
Proof.
  unfold pose_block. rewrite C_explicit. unfold C_matrix.
  generalize (1 / wheel_radius) roller_wheel_effect. intros u rho.
  generalize (get2 P). intros p.
  arr_eval. mat_eq ltac:(ring).
Qed.

Lemma matmul_zeros_l (B : mat) :
  shape 5 5 B -> matmul (np.zeros2 6 5) B = np.zeros2 6 5.
Proof.
  intros H. explode_shape H. arr_eval. mat_eq ltac:(ring).
Qed.

(** With no velocity block in the predicted covariance, [P C^T] is zero,
    so is the gain, and the update returns the predicted state and the
    predicted covariance plus the regulariser. *)
Lemma innovation_zero_gain (pred_state : vec) (P : mat) (z : vec) (v : R) :
  length pred_state = 6%nat -> length z = 5%nat ->
  v + epsilon <> 0 ->
  innovation pred_state (pose_block P) z (diag5 v 3 3 3 3) =
  Ok (pred_state, madd (pose_block P) (mscale epsilon (np.eye 6))).
Proof.
  intros Hx Hz Hv.
  assert (Hdet : np.linalg.det (innovation_cov (pose_block P)
                                               (diag5 v 3 3 3 3)) <> 0).
  { rewrite innovation_cov_pose_block, det_diag5.
    assert (3 + epsilon <> 0) by (unfold epsilon; lra).
    repeat apply Rmult_integral_contrapositive_currified; assumption. }
  assert (Hsh : shape 5 5 (innovation_cov (pose_block P) (diag5 v 3 3 3 3))).
  { rewrite innovation_cov_pose_block. shape_tac. }
  destruct (inv5_correct _ Hsh Hdet) as (Sinv & Hinv & HS & _ & _).
  unfold innovation. fold (innovation_cov (pose_block P) (diag5 v 3 3 3 3)).
  rewrite Hinv. cbn [bind].
  rewrite gain_numerator_pose_block, (matmul_zeros_l Sinv HS).
  f_equal. f_equal.
  - rewrite C_explicit. unfold C_matrix.
    generalize (1 / wheel_radius) roller_wheel_effect. intros u rho.
    explode_list Hx. explode_list Hz.
    arr_eval. vec_eq ltac:(ring).
  - rewrite C_explicit. unfold C_matrix, pose_block.
    generalize (1 / wheel_radius) roller_wheel_effect. intros u rho.
    generalize (get2 P). intros p.
    arr_eval. mat_eq ltac:(ring).
Qed.

(** ** One call of [callback] *)

Lemma measurement_of_four (imu_data : Imu) (wheel_encoder_data : JointState) :
  length (velocity wheel_encoder_data) = 4%nat ->
  measurement_of imu_data wheel_encoder_data =
  Ok (angular_velocity_z imu_data :: velocity wheel_encoder_data).
Proof.
  intros H. unfold measurement_of.
  destruct wheel_encoder_data as [v]; simpl in *.
  explode_list H. reflexivity.
Qed.

(** Lines 48-103 on well-formed input. *)
Lemma posterior_zero_gain (self : t) (imu_data : Imu)
      (wheel_encoder_data : JointState) (cmd_vel : Twist) (dt : R) (L : mat) :
  length (velocity wheel_encoder_data) = 4%nat ->
  np.linalg.cholesky (state_cov self) = Ok L ->
  get (angular_velocity_covariance imu_data) 8 + epsilon <> 0 ->
  posterior self imu_data wheel_encoder_data cmd_vel dt =
  Ok (fst (recombine self (sigma_points (state self) L) cmd_vel dt),
      madd (snd (recombine self (sigma_points (state self) L) cmd_vel dt))
           (mscale epsilon (np.eye 6))).
Proof.
  intros Hw HL Hv. unfold posterior.
  rewrite (measurement_of_four _ _ Hw). cbn [bind].
  destruct (predict self (state self) cmd_vel dt) as [e1 e2].
  rewrite HL. cbn [bind].
  pose proof (recombine_pose_block self _ cmd_vel dt
                (sigma_points_length (state self) L)) as Hb.
  pose proof (recombine_mean_length self _ cmd_vel dt
                (sigma_points_length (state self) L)) as Hm.
  destruct (recombine self (sigma_points (state self) L) cmd_vel dt)
    as [pred_state pred_cov].
  cbn [fst snd] in *.
  rewrite z_cov_of_diag. rewrite Hb.
  apply innovation_zero_gain; [exact Hm | | exact Hv].
  simpl. rewrite Hw. reflexivity.
Qed.

Lemma callback_first (self : t) (imu_data : Imu)
      (wheel_encoder_data : JointState) (cmd_vel : Twist) :
  prev_time self = None ->
  callback self imu_data wheel_encoder_data cmd_vel =
  (set_prev_time self (stamp imu_data), NoEstimate).
Proof. intros H. unfold callback. rewrite H. reflexivity. Qed.

(** A call with a previous timestamp, on well-formed input. *)
Lemma callback_step (self : t) (imu_data : Imu)
      (wheel_encoder_data : JointState) (cmd_vel : Twist) (t0 : R) (L : mat) :
  prev_time self = Some t0 ->
  length (velocity wheel_encoder_data) = 4%nat ->
  np.linalg.cholesky (state_cov self) = Ok L ->
  get (angular_velocity_covariance imu_data) 8 + epsilon <> 0 ->
  let self' :=
    committed self L cmd_vel (stamp imu_data) (stamp imu_data - t0) in
  callback self imu_data wheel_encoder_data cmd_vel =
  (self', Published (publish_odometry self' (stamp imu_data))).
Proof.
  intros Hp Hw HL Hv self'. unfold callback. rewrite Hp.
  rewrite (posterior_zero_gain (set_prev_time self (stamp imu_data))
             imu_data wheel_encoder_data cmd_vel (stamp imu_data - t0) L
             Hw HL Hv).
  reflexivity.
Qed.

(** ** The run: start-up, then one step *)

Lemma cholesky_init :
  np.linalg.cholesky (state_cov init) = Ok (scaled_eye6 (sqrt 0.1)).
Proof.
  unfold init. cbn [state_cov]. rewrite mscale_eye6.
  apply cholesky_scaled_eye6. lra.
Qed.

Lemma sigma_points_zero_state (s : R) :
  sigma_points (np.zeros 6) (scaled_eye6 s) =
  [ [0; 0; 0; 0; 0; 0];
    [2 * s; 0; 0; 0; 0; 0]; [0; 2 * s; 0; 0; 0; 0]; [0; 0; 2 * s; 0; 0; 0];
    [0; 0; 0; 2 * s; 0; 0]; [0; 0; 0; 0; 2 * s; 0]; [0; 0; 0; 0; 0; 2 * s];
    [- (2 * s); 0; 0; 0; 0; 0]; [0; - (2 * s); 0; 0; 0; 0];
    [0; 0; - (2 * s); 0; 0; 0]; [0; 0; 0; - (2 * s); 0; 0];
    [0; 0; 0; 0; - (2 * s); 0]; [0; 0; 0; 0; 0; - (2 * s)] ].
Proof.
  rewrite sigma_points_rows. arr_eval. mat_eq ltac:(ring).
Qed.

Lemma recombine_started (s dt : R) :
  recombine started (sigma_points (np.zeros 6) (scaled_eye6 s))
            cmd_forward dt =
  ( [dt * (6 + cos (2 * s)) / 7; 0; 0; 1; 0; 0],
    [ [(8 * (s * s) + 2 * (dt * dt) * ((1 - cos (2 * s)) * (1 - cos (2 * s))))
       / 14; 0; 0; 0; 0; 0];
      [0; (8 * (s * s) + 2 * (dt * dt) * (sin (2 * s) * sin (2 * s))) / 14;
       4 * s * sin (2 * s) * dt / 14; 0; 0; 0];
      [0; 4 * s * sin (2 * s) * dt / 14; 8 * (s * s) / 14; 0; 0; 0];
      [0; 0; 0; 0; 0; 0];
      [0; 0; 0; 0; 0; 0];
      [0; 0; 0; 0; 0; 0] ] ).
Proof.
  rewrite sigma_points_zero_state.
  arr_eval.
  rewrite !cos_neg, !sin_neg, !cos_0, !sin_0.
  generalize (cos (2 * s)) (sin (2 * s)). intros c sg.
  apply f_equal2; [vec_eq ltac:(field) | mat_eq ltac:(field)].
Qed.

(** ** The first filtering step of the run *)

Lemma sqrt_tenth_bounds : 0 < sqrt 0.1 < 1.
Proof.
  split.
  - apply sqrt_lt_R0. lra.
  - rewrite <- sqrt_1. apply sqrt_lt_1; lra.
Qed.

Lemma cos_two_sqrt_tenth : cos (2 * sqrt 0.1) < 1.
Proof.
  pose proof sqrt_tenth_bounds as [H0 H1].
  pose proof PI2_1 as HPI.
  rewrite <- cos_0.
  apply cos_decreasing_1; lra.
Qed.

Lemma claimed_cov_started_00 (s dt : R) :
  let pts :=
    propagated started (sigma_points (np.zeros 6) (scaled_eye6 s))
               cmd_forward dt in
  get2 (weighted_cov cov_weights (weighted_mean mean_weights pts) pts) 0 0 =
  (8 * (s * s) + 2 * (dt * dt) * ((1 - cos (2 * s)) * (1 - cos (2 * s))))
  / 14
  - (dt * (1 - cos (2 * s)) / 7) * (dt * (1 - cos (2 * s)) / 7).
Proof.
  intros pts. subst pts. rewrite sigma_points_zero_state.
  arr_eval.
  rewrite !cos_neg, !sin_neg, !cos_0, !sin_0.
  generalize (cos (2 * s)) (sin (2 * s)). intros c sg.
  field.
Qed.

(** ** C1: the reference point of the recombined covariance *)

(** C1. On the first filtering step after start-up (state 0, covariance
    0.1 I, command (1, 0, 0), dt = 1) the covariance that [callback]
    recombines is the weighted sum of outer products about the
    propagated prior state, and its entry (0,0) differs from that of the
    weighted sum about the recombined mean. *)
Theorem pred_cov_not_about_recombined_mean :
  let sigma := sigma_points (state started) (scaled_eye6 (sqrt 0.1)) in
  let pts := propagated started sigma cmd_forward 1 in
  let pred := recombine started sigma cmd_forward 1 in
  np.linalg.cholesky (state_cov started) = Ok (scaled_eye6 (sqrt 0.1)) /\
  fst pred = weighted_mean mean_weights pts /\
  snd pred =
    weighted_cov cov_weights
      (fst (predict started (state started) cmd_forward 1)) pts /\
  get2 (snd pred) 0 0 <>
  get2 (weighted_cov cov_weights (fst pred) pts) 0 0.
Proof.
  intros sigma pts pred.
  assert (Hs : pred = (weighted_mean mean_weights pts,
                       weighted_cov cov_weights
                         (fst (predict started (state started)
                                       cmd_forward 1)) pts)).
  { apply recombine_sums, sigma_points_length. }
  split; [exact cholesky_init|].
  split; [rewrite Hs; reflexivity|].
  split; [rewrite Hs; reflexivity|].
  replace (fst pred) with (weighted_mean mean_weights pts)
    by (rewrite Hs; reflexivity).
  subst pts sigma. change (state started) with (np.zeros 6).
  rewrite claimed_cov_started_00.
  subst pred. change (state started) with (np.zeros 6).
  rewrite recombine_started. cbn [snd].
  change (get2 _ 0 0) with
    ((8 * (sqrt 0.1 * sqrt 0.1) +
      2 * (1 * 1) * ((1 - cos (2 * sqrt 0.1)) * (1 - cos (2 * sqrt 0.1))))
     / 14).
  pose proof cos_two_sqrt_tenth as Hc.
  generalize dependent (cos (2 * sqrt 0.1)). intros c Hc.
  generalize (sqrt 0.1). intros s.
  intros E.
  assert (Hz : (1 * (1 - c) / 7) * (1 * (1 - c) / 7) = 0) by lra.
  assert (Hp : 0 < (1 * (1 - c) / 7) * (1 * (1 - c) / 7)).
  { apply Rmult_lt_0_compat; lra. }
  lra.
Qed.

Lemma imu_variance_regular (now : R) :
  get (angular_velocity_covariance (imu_at now)) 8 + epsilon <> 0.
Proof. unfold epsilon. simpl. unfold get. simpl. lra. Qed.

Lemma started_step (now : R) :
  callback started (imu_at now) wheels_still cmd_forward =
  (committed started (scaled_eye6 (sqrt 0.1)) cmd_forward now (now - 0),
   Published
     (publish_odometry
        (committed started (scaled_eye6 (sqrt 0.1)) cmd_forward now (now - 0))
        now)).
Proof.
  apply (callback_step started (imu_at now) wheels_still cmd_forward 0).
  - reflexivity.
  - reflexivity.
  - exact cholesky_init.
  - apply imu_variance_regular.
Qed.

Lemma committed_started_state (now dt : R) :
  state (committed started (scaled_eye6 (sqrt 0.1)) cmd_forward now dt) =
  [dt * (6 + cos (2 * sqrt 0.1)) / 7; 0; 0; 1; 0; 0].
Proof.
  unfold committed. cbn [state]. change (state started) with (np.zeros 6).
  rewrite recombine_started. reflexivity.
Qed.

Lemma committed_started_cov_33 (now dt : R) :
  get2 (state_cov (committed started (scaled_eye6 (sqrt 0.1)) cmd_forward
                             now dt)) 3 3 = epsilon.
Proof.
  unfold committed. cbn [state_cov]. change (state started) with (np.zeros 6).
  rewrite recombine_started. cbn [snd].
  arr_eval. ring.
Qed.

(** ** C2: a step with a non-positive time delta *)

(** C2, counterexample.  With two samples at the same time the delta is
    0; the second callback publishes an estimate and replaces both the
    state vector and the covariance. *)
Lemma nonpositive_dt_counterexample :
  exists (self' : t) (m : Odometry),
    prev_time started = Some 0 /\
    stamp (imu_at 0) - 0 <= 0 /\
    callback started (imu_at 0) wheels_still cmd_forward =
      (self', Published m) /\
    state started = [0; 0; 0; 0; 0; 0] /\
    state self' = [0; 0; 0; 1; 0; 0] /\
    state self' <> state started /\
    state_cov self' <> state_cov started.
Proof.
  eexists. eexists.
  split; [reflexivity|].
  split; [simpl; lra|].
  split; [apply started_step|].
  split; [reflexivity|].
  assert (Hst : state (committed started (scaled_eye6 (sqrt 0.1)) cmd_forward
                                 0 (0 - 0)) = [0; 0; 0; 1; 0; 0]).
  { rewrite committed_started_state.
    vec_eq ltac:(try reflexivity; unfold Rdiv; ring). }
  split; [exact Hst|].
  split.
  - rewrite Hst. intros E.
    assert (H : get [0; 0; 0; 1; 0; 0] 3 = get (state started) 3)
      by (rewrite E; reflexivity).
    arr_eval_in H. lra.
  - intros E.
    pose proof (committed_started_cov_33 0 (0 - 0)) as H.
    rewrite E in H. arr_eval_in H. unfold epsilon in H. lra.
Qed.

(** C2, as the code has it.  There is no test on the time delta: a step
    with a previous timestamp and a non-positive delta runs like any
    other.  With four wheel speeds, a covariance that has a Cholesky
    factor and an IMU variance [v] with [v + epsilon <> 0] it records
    the timestamp, commits the recombined mean and the recombined
    covariance plus [epsilon I], and publishes that estimate. *)
Theorem nonpositive_dt_step_is_processed (self : t) (imu_data : Imu)
        (wheel_encoder_data : JointState) (cmd_vel : Twist) (t0 : R)
        (L : mat) :
  prev_time self = Some t0 ->
  stamp imu_data - t0 <= 0 ->
  length (velocity wheel_encoder_data) = 4%nat ->
  np.linalg.cholesky (state_cov self) = Ok L ->
  get (angular_velocity_covariance imu_data) 8 + epsilon <> 0 ->
  let self' :=
    committed self L cmd_vel (stamp imu_data) (stamp imu_data - t0) in
  callback self imu_data wheel_encoder_data cmd_vel =
    (self', Published (publish_odometry self' (stamp imu_data))) /\
  prev_time self' = Some (stamp imu_data).
Proof.
  intros Hp _ Hw HL Hv self'. split; [|reflexivity].
  exact (callback_step self imu_data wheel_encoder_data cmd_vel t0 L
                       Hp Hw HL Hv).
Qed.

(** The step with delta 0 of the run. *)
Lemma nonpositive_dt_step_is_processed_witness :
  let self' :=
    committed started (scaled_eye6 (sqrt 0.1)) cmd_forward
              (stamp (imu_at 0)) (stamp (imu_at 0) - 0) in
  callback started (imu_at 0) wheels_still cmd_forward =
    (self', Published (publish_odometry self' (stamp (imu_at 0)))) /\
  prev_time self' = Some (stamp (imu_at 0)).
Proof.
  apply (nonpositive_dt_step_is_processed
           started (imu_at 0) wheels_still cmd_forward 0
           (scaled_eye6 (sqrt 0.1))).
  - reflexivity.
  - simpl; lra.
  - reflexivity.
  - exact cholesky_init.
  - apply imu_variance_regular.
Defined.

(** ** C3: the sigma points *)

(** C3. From a state of six entries and a covariance with Cholesky
    factor [L], the generator yields thirteen points: [x], then
    [x + 2 L[:,i]] for the six columns, then [x - 2 L[:,i]]; the factor
    2 is [sqrt((n - k) + lambda)] with [n = 6], [k = 3],
    [lambda = 7 - n = 1]. *)
Theorem sigma_points_layout (x : vec) (P L : mat) :
  length x = 6%nat -> shape 6 6 P ->
  np.linalg.cholesky P = Ok L ->
  (cov_sqrt <- np.linalg.cholesky P ;; Ok (sigma_points x cov_sqrt)) =
    Ok (x :: map (fun i => vadd x (vscale 2 (col L i))) (seq 0 6)
          ++ map (fun i => vsub x (vscale 2 (col L i))) (seq 0 6)) /\
  length (sigma_points x L) = 13%nat /\
  Z.to_nat (2 * n + 1) = 13%nat /\
  n = 6%Z /\ k = 3%Z /\ lambda_value = 1%Z /\
  sqrt (IZR ((n - k) + lambda_value)) = 2.
Proof.
  intros _ _ HL. rewrite HL. cbn [bind].
  rewrite sigma_points_rows.
  split; [reflexivity|]. split; [reflexivity|]. split; [reflexivity|].
  exact ukf_constants.
Qed.

(** The sigma points of the initial filter. *)
Lemma sigma_points_layout_witness :
  (cov_sqrt <- np.linalg.cholesky (state_cov init) ;;
   Ok (sigma_points (state init) cov_sqrt)) =
    Ok (state init
          :: map (fun i => vadd (state init)
                             (vscale 2 (col (scaled_eye6 (sqrt 0.1)) i)))
                 (seq 0 6)
          ++ map (fun i => vsub (state init)
                             (vscale 2 (col (scaled_eye6 (sqrt 0.1)) i)))
                 (seq 0 6)) /\
  length (sigma_points (state init) (scaled_eye6 (sqrt 0.1))) = 13%nat /\
  Z.to_nat (2 * n + 1) = 13%nat /\
  n = 6%Z /\ k = 3%Z /\ lambda_value = 1%Z /\
  sqrt (IZR ((n - k) + lambda_value)) = 2.
Proof.
  apply (sigma_points_layout (state init) (state_cov init)
                             (scaled_eye6 (sqrt 0.1))).
  - reflexivity.
  - split; [reflexivity | repeat constructor].
  - exact cholesky_init.
Defined.

(** ** C7: the mean weights reconstruct the state *)

(** C7. For a state of six entries and any 6x6 square-root matrix the
    weighted sum of the thirteen sigma points under the mean weights is
    the state itself. *)
Theorem sigma_mean_reconstruction (x : vec) (L : mat) :
  length x = 6%nat -> shape 6 6 L ->
  weighted_mean mean_weights (sigma_points x L) = x.
Proof.
  intros Hx HL. rewrite sigma_points_rows.
  explode_list Hx. explode_shape HL.
  arr_eval. vec_eq ltac:(field).
Qed.

(** A state with six different entries. *)
Lemma sigma_mean_reconstruction_witness :
  weighted_mean mean_weights
    (sigma_points [1; 2; 3; 4; 5; 6] (scaled_eye6 (sqrt 0.1))) =
  [1; 2; 3; 4; 5; 6].
Proof.
  apply (sigma_mean_reconstruction [1; 2; 3; 4; 5; 6]
                                   (scaled_eye6 (sqrt 0.1))).
  - reflexivity.
  - split; [reflexivity | repeat constructor].
Defined.

(** ** Shapes *)

Lemma map2_length {A B D : Type} (f : A -> B -> D) (l : list A) (m : list B) :
  length (map2 f l m) = Nat.min (length l) (length m).
Proof.
  revert m; induction l as [|x l IH]; intros [|y m]; simpl; auto.
Qed.

Lemma madd_shape (r c : nat) (A B : mat) :
  shape r c A -> shape r c B -> shape r c (madd A B).
Proof.
  unfold shape, madd. intros [HA FA] [HB FB]. split.
  - rewrite map2_length, HA, HB. apply Nat.min_id.
  - clear HA HB. revert B FB.
    induction FA as [|u A Hu FA IH]; intros B FB; [constructor|].
    destruct FB as [|v B Hv FB]; simpl; constructor.
    + unfold vadd. rewrite map2_length, Hu, Hv. apply Nat.min_id.
    + apply IH, FB.
Qed.

Lemma matmul_shape (A B : mat) : shape (length A) (ncols B) (matmul A B).
Proof.
  unfold shape, matmul. split.
  - apply length_map.
  - apply Forall_map, Forall_forall. intros r _.
    rewrite length_map, length_seq. reflexivity.
Qed.

Lemma innovation_cov_shape (pred_cov z_cov : mat) :
  shape 5 5 z_cov -> shape 5 5 (innovation_cov pred_cov z_cov).
Proof.
  intros HR. unfold innovation_cov.
  apply madd_shape; [apply madd_shape; [|exact HR] | shape_tac].
  pose proof (matmul_shape (matmul C pred_cov) (transpose C)) as H.
  rewrite (proj1 (matmul_shape C pred_cov)) in H.
  replace (length C) with 5%nat in H by (rewrite C_explicit; reflexivity).
  replace (ncols (transpose C)) with 5%nat in H
    by (rewrite C_explicit; reflexivity).
  exact H.
Qed.

(** ** C5: the measurement update *)

(** C5. When the regularised innovation covariance
    [S = C P C^T + R + eps I] is invertible, [innovation] returns
    [x + K (z - C x)] and [(I - K C) P + eps I] with [K = P C^T S^-1],
    where [S^-1] is the two-sided inverse of [S], [eps = 1e-6] and [C]
    is the constant 5x6 matrix of the wheel geometry. *)
Theorem innovation_kalman_update (pred_state : vec) (pred_cov : mat)
        (z : vec) (z_cov : mat) :
  length pred_state = 6%nat -> shape 6 6 pred_cov ->
  length z = 5%nat -> shape 5 5 z_cov ->
  np.linalg.det (innovation_cov pred_cov z_cov) <> 0 ->
  exists Sinv : mat,
    matmul (innovation_cov pred_cov z_cov) Sinv = np.eye 5 /\
    matmul Sinv (innovation_cov pred_cov z_cov) = np.eye 5 /\
    innovation pred_state pred_cov z z_cov =
    (let K := matmul (matmul pred_cov (transpose C)) Sinv in
     Ok (vadd pred_state (matvec K (vsub z (matvec C pred_state))),
         madd (matmul (msub (np.eye 6) (matmul K C)) pred_cov)
              (mscale epsilon (np.eye 6)))) /\
    C = C_matrix /\ shape 5 6 C /\ epsilon = 1 / 1000000.
Proof.
  intros _ _ _ HR Hdet.
  destruct (inv5_correct _ (innovation_cov_shape pred_cov z_cov HR) Hdet)
    as (Sinv & Hinv & _ & Hr & Hl).
  exists Sinv.
  split; [exact Hr | split; [exact Hl | split; [| split; [|split]]]].
  - unfold innovation. fold (innovation_cov pred_cov z_cov).
    rewrite Hinv. reflexivity.
  - apply C_explicit.
  - rewrite C_explicit. shape_tac.
  - unfold epsilon. lra.
Qed.

(** An update with a diagonal innovation covariance. *)
Lemma innovation_kalman_update_witness :
  exists Sinv : mat,
    matmul (innovation_cov (pose_block (scaled_eye6 0.5))
                           (diag5 0.01 3 3 3 3)) Sinv = np.eye 5 /\
    matmul Sinv (innovation_cov (pose_block (scaled_eye6 0.5))
                                (diag5 0.01 3 3 3 3)) = np.eye 5 /\
    innovation [0; 0; 0; 1; 0; 0] (pose_block (scaled_eye6 0.5))
               [0; 13; 13; 13; 13] (diag5 0.01 3 3 3 3) =
    (let K := matmul (matmul (pose_block (scaled_eye6 0.5)) (transpose C))
                     Sinv in
     Ok (vadd [0; 0; 0; 1; 0; 0]
              (matvec K (vsub [0; 13; 13; 13; 13]
                              (matvec C [0; 0; 0; 1; 0; 0]))),
         madd (matmul (msub (np.eye 6) (matmul K C))
                      (pose_block (scaled_eye6 0.5)))
              (mscale epsilon (np.eye 6)))) /\
    C = C_matrix /\ shape 5 6 C /\ epsilon = 1 / 1000000.
Proof.
  apply (innovation_kalman_update
           [0; 0; 0; 1; 0; 0] (pose_block (scaled_eye6 0.5))
           [0; 13; 13; 13; 13] (diag5 0.01 3 3 3 3)).
  - reflexivity.
  - split; [reflexivity | repeat constructor].
  - reflexivity.
  - split; [reflexivity | repeat constructor].
  - rewrite innovation_cov_pose_block, det_diag5.
    unfold epsilon. intros E.
    assert (H : 0 < (0.01 + 1e-6) * (3 + 1e-6) * (3 + 1e-6) * (3 + 1e-6)
                    * (3 + 1e-6)).
    { repeat apply Rmult_lt_0_compat; lra. }
    lra.
Defined.

(** ** C8: the first sample *)

(** C8. The first callback records the timestamp, returns without an
    estimate and leaves state and covariance at their initial values
    (zero, 0.1 I).  A later callback either raises, and then state and
    covariance are those it found, or it commits the posterior computed
    from the state and covariance it found and publishes it; the latter
    happens whenever there are four wheel speeds, the covariance has a
    Cholesky factor and the IMU variance [v] has [v + epsilon <> 0]. *)
Theorem first_sample_gap_then_commit (self : t) (imu_data : Imu)
        (wheel_encoder_data : JointState) (cmd_vel : Twist) :
  callback init imu_data wheel_encoder_data cmd_vel =
    ({| state := np.zeros 6;
        state_cov := mscale 0.1 (np.eye 6);
        prev_time := Some (stamp imu_data) |}, NoEstimate) /\
  (prev_time self = None ->
   callback self imu_data wheel_encoder_data cmd_vel =
     ({| state := state self;
         state_cov := state_cov self;
         prev_time := Some (stamp imu_data) |}, NoEstimate)) /\
  (forall t0 : R,
      prev_time self = Some t0 ->
      (exists e : exn,
          posterior self imu_data wheel_encoder_data cmd_vel
                    (stamp imu_data - t0) = Raise e /\
          callback self imu_data wheel_encoder_data cmd_vel =
            ({| state := state self;
                state_cov := state_cov self;
                prev_time := Some (stamp imu_data) |}, Raised e)) \/
      (exists (x : vec) (P : mat),
          posterior self imu_data wheel_encoder_data cmd_vel
                    (stamp imu_data - t0) = Ok (x, P) /\
          callback self imu_data wheel_encoder_data cmd_vel =
            ({| state := x; state_cov := P;
                prev_time := Some (stamp imu_data) |},
             Published
               (publish_odometry
                  {| state := x; state_cov := P;
                     prev_time := Some (stamp imu_data) |}
                  (stamp imu_data))))) /\
  (forall (t0 : R) (L : mat),
      prev_time self = Some t0 ->
      length (velocity wheel_encoder_data) = 4%nat ->
      np.linalg.cholesky (state_cov self) = Ok L ->
      get (angular_velocity_covariance imu_data) 8 + epsilon <> 0 ->
      exists (x : vec) (P : mat),
        posterior self imu_data wheel_encoder_data cmd_vel
                  (stamp imu_data - t0) = Ok (x, P) /\
        callback self imu_data wheel_encoder_data cmd_vel =
          ({| state := x; state_cov := P;
              prev_time := Some (stamp imu_data) |},
           Published
             (publish_odometry
                {| state := x; state_cov := P;
                   prev_time := Some (stamp imu_data) |}
                (stamp imu_data)))).
Proof.
  split; [reflexivity|].
  split; [intros H; apply callback_first; exact H|].
  split.
  - intros t0 Hp. unfold callback. rewrite Hp.
    change (posterior (set_prev_time self (stamp imu_data)) imu_data
                      wheel_encoder_data cmd_vel (stamp imu_data - t0))
      with (posterior self imu_data wheel_encoder_data cmd_vel
                      (stamp imu_data - t0)).
    destruct (posterior self imu_data wheel_encoder_data cmd_vel
                        (stamp imu_data - t0)) as [[x P]|e].
    + right. exists x, P. split; reflexivity.
    + left. exists e. split; reflexivity.
  - intros t0 L Hp Hw HL Hv.
    pose proof (posterior_zero_gain self imu_data wheel_encoder_data cmd_vel
                  (stamp imu_data - t0) L Hw HL Hv) as Hpost.
    eexists. eexists. split; [exact Hpost|].
    exact (callback_step self imu_data wheel_encoder_data cmd_vel t0 L
                         Hp Hw HL Hv).
Qed.

(** The run: the first callback at time 0, the second at time 1. *)
Lemma first_sample_gap_then_commit_witness :
  callback init (imu_at 0) wheels_still cmd_forward =
    ({| state := np.zeros 6;
        state_cov := mscale 0.1 (np.eye 6);
        prev_time := Some 0 |}, NoEstimate) /\
  exists (x : vec) (P : mat),
    posterior started (imu_at 1) wheels_still cmd_forward (1 - 0)
      = Ok (x, P) /\
    callback started (imu_at 1) wheels_still cmd_forward =
      ({| state := x; state_cov := P; prev_time := Some 1 |},
       Published
         (publish_odometry
            {| state := x; state_cov := P; prev_time := Some 1 |} 1)).
Proof.
  split.
  - exact (proj1 (first_sample_gap_then_commit
                    started (imu_at 0) wheels_still cmd_forward)).
  - apply (proj2 (proj2 (proj2 (first_sample_gap_then_commit
                                  started (imu_at 1) wheels_still
                                  cmd_forward)))
             0 (scaled_eye6 (sqrt 0.1))).
    + reflexivity.
    + reflexivity.
    + exact cholesky_init.
    + apply imu_variance_regular.
Defined.

(** ** C9: the published message *)

(** C9. The message is a function of the committed state and covariance
    and of the timestamp alone, the filter object that [callback]
    returns is the one the message was read from, and in both published
    6x6 covariances every entry outside rows and columns 0, 1, 5 is
    zero. *)
Theorem publish_odometry_projection (self self' : t) (imu_data : Imu)
        (wheel_encoder_data : JointState) (cmd_vel : Twist) (m : Odometry)
        (i j : nat) :
  callback self imu_data wheel_encoder_data cmd_vel = (self', Published m) ->
  (i < 6)%nat -> (j < 6)%nat ->
  ~ (In i [0; 1; 5]%nat /\ In j [0; 1; 5]%nat) ->
  m = publish_odometry self' (stamp imu_data) /\
  (exists t0 : R,
      prev_time self = Some t0 /\
      posterior self imu_data wheel_encoder_data cmd_vel
                (stamp imu_data - t0) = Ok (state self', state_cov self')) /\
  (forall other : t,
      state other = state self' -> state_cov other = state_cov self' ->
      publish_odometry other (stamp imu_data) = m) /\
  length (pose_covariance m) = 36%nat /\
  length (twist_covariance m) = 36%nat /\
  get (pose_covariance m) (6 * i + j) = 0 /\
  get (twist_covariance m) (6 * i + j) = 0.
Proof.
  intros Hcb Hi Hj Hn.
  assert (Hm : m = publish_odometry self' (stamp imu_data) /\
               exists t0 : R,
                 prev_time self = Some t0 /\
                 posterior self imu_data wheel_encoder_data cmd_vel
                           (stamp imu_data - t0)
                 = Ok (state self', state_cov self')).
  { unfold callback in Hcb.
    destruct (prev_time self) as [t0|]; [|discriminate].
    change (posterior (set_prev_time self (stamp imu_data)) imu_data
                      wheel_encoder_data cmd_vel (stamp imu_data - t0))
      with (posterior self imu_data wheel_encoder_data cmd_vel
                      (stamp imu_data - t0)) in Hcb.
    destruct (posterior self imu_data wheel_encoder_data cmd_vel
                        (stamp imu_data - t0)) as [[x P]|e] eqn:E;
      [|discriminate].
    injection Hcb as Hs Hm. subst self'. split.
    - symmetry. exact Hm.
    - exists t0. split; [reflexivity | exact E]. }
  destruct Hm as [Hm Hpost].
  split; [exact Hm|]. split; [exact Hpost|].
  split.
  { intros other Hs Hc. rewrite Hm. unfold publish_odometry.
    rewrite Hs, Hc. reflexivity. }
  rewrite Hm. unfold publish_odometry.
  cbn [pose_covariance twist_covariance].
  generalize (get2 (state_cov self')). intros p.
  split; [reflexivity|]. split; [reflexivity|].
  do 6 (destruct i as [|i];
        [ do 6 (destruct j as [|j];
                [ first [ exfalso; apply Hn; simpl; tauto
                        | split; reflexivity ] | ]);
          exfalso; lia | ]).
  exfalso; lia.
Qed.

(** The message of the second callback of the run, entry (0, 2). *)
Lemma publish_odometry_projection_witness :
  let self' :=
    committed started (scaled_eye6 (sqrt 0.1)) cmd_forward 1 (1 - 0) in
  let m := publish_odometry self' 1 in
  m = publish_odometry self' (stamp (imu_at 1)) /\
  (exists t0 : R,
      prev_time started = Some t0 /\
      posterior started (imu_at 1) wheels_still cmd_forward
                (stamp (imu_at 1) - t0) = Ok (state self', state_cov self')) /\
  (forall other : t,
      state other = state self' -> state_cov other = state_cov self' ->
      publish_odometry other (stamp (imu_at 1)) = m) /\
  length (pose_covariance m) = 36%nat /\
  length (twist_covariance m) = 36%nat /\
  get (pose_covariance m) (6 * 0 + 2) = 0 /\
  get (twist_covariance m) (6 * 0 + 2) = 0.
Proof.
  intros self' m.
  apply (publish_odometry_projection
           started self' (imu_at 1) wheels_still cmd_forward m 0 2).
  - apply started_step.
  - lia.
  - lia.
  - simpl. intros [_ [H|[H|[H|H]]]]; try discriminate H; exact H.
Defined.

(** * Further properties of the code *)

(** ** The measurement vector *)

(** X1. The measurement vector is the yaw rate followed by the four
    wheel speeds; a single wheel speed is broadcast to the four slots;
    any other number of wheel speeds raises [ValueError]. *)
Theorem measurement_of_cases (imu_data : Imu)
        (wheel_encoder_data : JointState) :
  match velocity wheel_encoder_data with
  | [w0; w1; w2; w3] =>
      measurement_of imu_data wheel_encoder_data =
      Ok [angular_velocity_z imu_data; w0; w1; w2; w3]
  | [w] =>
      measurement_of imu_data wheel_encoder_data =
      Ok [angular_velocity_z imu_data; w; w; w; w]
  | _ => measurement_of imu_data wheel_encoder_data = Raise ValueError
  end.
Proof.
  destruct wheel_encoder_data as [v]. cbn [velocity].
  destruct v as [|w0 [|w1 [|w2 [|w3 [|w4 v]]]]]; reflexivity.
Qed.

Lemma measurement_of_ok_iff (imu_data : Imu)
      (wheel_encoder_data : JointState) :
  (exists z : vec, measurement_of imu_data wheel_encoder_data = Ok z) <->
  wheel_sample_fits wheel_encoder_data.
Proof.
  pose proof (measurement_of_cases imu_data wheel_encoder_data) as H.
  unfold wheel_sample_fits.
  destruct wheel_encoder_data as [v]. cbn [velocity] in *.
  destruct v as [|w0 [|w1 [|w2 [|w3 [|w4 v]]]]]; rewrite H; simpl;
    split;
    try (intros [z Hz]; discriminate Hz);
    try (intros [Hl|Hl]; discriminate Hl);
    try (intros _; eauto);
    try (intros _; lia).
Qed.

Lemma measurement_of_length (imu_data : Imu)
      (wheel_encoder_data : JointState) (z : vec) :
  measurement_of imu_data wheel_encoder_data = Ok z -> length z = 5%nat.
Proof.
  pose proof (measurement_of_cases imu_data wheel_encoder_data) as H.
  destruct wheel_encoder_data as [v]. cbn [velocity] in *.
  destruct v as [|w0 [|w1 [|w2 [|w3 [|w4 v]]]]]; rewrite H;
    intros E; try discriminate E; injection E as E; subst z; reflexivity.
Qed.

(** ** The update never uses the measurement *)

Lemma innovation_singular (pred_state : vec) (P : mat) (z : vec) (v : R) :
  v + epsilon = 0 ->
  innovation pred_state (pose_block P) z (diag5 v 3 3 3 3) =
  Raise LinAlgError.
Proof.
  intros Hv. unfold innovation.
  fold (innovation_cov (pose_block P) (diag5 v 3 3 3 3)).
  rewrite inv5_singular; [reflexivity|].
  rewrite innovation_cov_pose_block, det_diag5, Hv. ring.
Qed.

(** Lines 48-103 in full: which exception, or which pair. *)
Lemma posterior_cases (self : t) (imu_data : Imu)
      (wheel_encoder_data : JointState) (cmd_vel : Twist) (dt : R) :
  posterior self imu_data wheel_encoder_data cmd_vel dt =
  (z <- measurement_of imu_data wheel_encoder_data ;;
   L <- np.linalg.cholesky (state_cov self) ;;
   if Req_dec_T (get (angular_velocity_covariance imu_data) 8 + epsilon) 0
   then Raise LinAlgError
   else
     Ok (fst (recombine self (sigma_points (state self) L) cmd_vel dt),
         madd (snd (recombine self (sigma_points (state self) L) cmd_vel dt))
              (mscale epsilon (np.eye 6)))).
Proof.
  unfold posterior.
  destruct (measurement_of imu_data wheel_encoder_data) as [z|e] eqn:Hz;
    [|reflexivity].
  cbn [bind].
  destruct (predict self (state self) cmd_vel dt) as [e1 e2].
  destruct (np.linalg.cholesky (state_cov self)) as [L|e]; [|reflexivity].
  cbn [bind].
  pose proof (recombine_pose_block self _ cmd_vel dt
                (sigma_points_length (state self) L)) as Hb.
  pose proof (recombine_mean_length self _ cmd_vel dt
                (sigma_points_length (state self) L)) as Hm.
  destruct (recombine self (sigma_points (state self) L) cmd_vel dt)
    as [pred_state pred_cov].
  cbn [fst snd] in *.
  rewrite z_cov_of_diag. rewrite Hb.
  destruct (Req_dec_T
              (get (angular_velocity_covariance imu_data) 8 + epsilon) 0)
    as [Hv|Hv].
  - apply innovation_singular. exact Hv.
  - apply innovation_zero_gain;
      [exact Hm | exact (measurement_of_length _ _ _ Hz) | exact Hv].
Qed.

(** When a call publishes. *)
Lemma callback_publishes_criterion (self : t) (imu_data : Imu)
        (wheel_encoder_data : JointState) (cmd_vel : Twist) :
  (exists (self' : t) (m : Odometry),
      callback self imu_data wheel_encoder_data cmd_vel
      = (self', Published m)) <->
  (exists t0 : R, prev_time self = Some t0) /\
  wheel_sample_fits wheel_encoder_data /\
  (exists L : mat, np.linalg.cholesky (state_cov self) = Ok L) /\
  get (angular_velocity_covariance imu_data) 8 + epsilon <> 0.
Proof.
  unfold callback.
  destruct (prev_time self) as [t0|].
  2:{ split.
      - intros (s & m & H). discriminate H.
      - intros ((t0 & H) & _). discriminate H. }
  change (posterior (set_prev_time self (stamp imu_data)) imu_data
                    wheel_encoder_data cmd_vel (stamp imu_data - t0))
    with (posterior self imu_data wheel_encoder_data cmd_vel
                    (stamp imu_data - t0)).
  rewrite posterior_cases.
  rewrite <- (measurement_of_ok_iff imu_data wheel_encoder_data).
  destruct (measurement_of imu_data wheel_encoder_data) as [z|e]; cbn [bind].
  2:{ split.
      - intros (s & m & H). discriminate H.
      - intros (_ & (z & H) & _). discriminate H. }
  destruct (np.linalg.cholesky (state_cov self)) as [L|e]; cbn [bind].
  2:{ split.
      - intros (s & m & H). discriminate H.
      - intros (_ & _ & (L & H) & _). discriminate H. }
  destruct (Req_dec_T
              (get (angular_velocity_covariance imu_data) 8 + epsilon) 0)
    as [Hv|Hv].
  - split.
    + intros (s & m & H). discriminate H.
    + intros (_ & _ & _ & H). contradiction.
  - split.
    + intros _. repeat split; eauto.
    + intros _. eexists. eexists. reflexivity.
Qed.

(** X2. A call with a previous timestamp publishes exactly when the
    wheel sample fits, the covariance has a Cholesky factor and the IMU
    variance [v] has [v + epsilon <> 0]; a first call never publishes. *)
Theorem callback_publishes_iff (self : t) (imu_data : Imu)
        (wheel_encoder_data : JointState) (cmd_vel : Twist) :
  (exists (self' : t) (m : Odometry),
      callback self imu_data wheel_encoder_data cmd_vel
      = (self', Published m)) <->
  (exists t0 : R, prev_time self = Some t0) /\
  wheel_sample_fits wheel_encoder_data /\
  (exists L : mat, np.linalg.cholesky (state_cov self) = Ok L) /\
  get (angular_velocity_covariance imu_data) 8 + epsilon <> 0.
Proof.
  exact (callback_publishes_criterion self imu_data wheel_encoder_data
                                      cmd_vel).
Qed.

(** X3. The estimate does not depend on what was measured: two calls on
    the same filter with the same timestamp and command return the same
    filter object and publish the same message, whatever the yaw rates,
    the wheel speeds and the (regular) IMU variances are. *)
Theorem callback_ignores_measurement (self : t) (imu1 imu2 : Imu)
        (wheel1 wheel2 : JointState) (cmd_vel : Twist) :
  stamp imu1 = stamp imu2 ->
  wheel_sample_fits wheel1 -> wheel_sample_fits wheel2 ->
  get (angular_velocity_covariance imu1) 8 + epsilon <> 0 ->
  get (angular_velocity_covariance imu2) 8 + epsilon <> 0 ->
  callback self imu1 wheel1 cmd_vel = callback self imu2 wheel2 cmd_vel.
Proof.
  intros Hs Hw1 Hw2 Hv1 Hv2. unfold callback. rewrite Hs.
  destruct (prev_time self) as [t0|]; [|reflexivity].
  change (posterior (set_prev_time self (stamp imu2)) ?i ?w cmd_vel ?d)
    with (posterior self i w cmd_vel d).
  rewrite !posterior_cases.
  apply (measurement_of_ok_iff imu1) in Hw1. destruct Hw1 as [z1 Hz1].
  apply (measurement_of_ok_iff imu2) in Hw2. destruct Hw2 as [z2 Hz2].
  rewrite Hz1, Hz2. cbn [bind].
  destruct (np.linalg.cholesky (state_cov self)) as [L|e]; cbn [bind];
    [|reflexivity].
  destruct (Req_dec_T (get (angular_velocity_covariance imu1) 8 + epsilon) 0)
    as [E|_]; [contradiction|].
  destruct (Req_dec_T (get (angular_velocity_covariance imu2) 8 + epsilon) 0)
    as [E|_]; [contradiction|].
  reflexivity.
Qed.

(** ** The Cholesky factor of a 6x6 matrix *)

Lemma chol_rows_inv (m : nat) (Lprev : mat) (arow : vec) (rest L : mat) :
  np.linalg.chol_rows m Lprev (arow :: rest) = Ok L ->
  exists r : vec,
    np.linalg.chol_row m Lprev arow = Ok r /\
    np.linalg.chol_rows m (Lprev ++ [r]) rest = Ok L.
Proof.
  simpl. destruct (np.linalg.chol_row m Lprev arow) as [r|e]; simpl.
  - intros H. exists r. split; [reflexivity | exact H].
  - intros H. discriminate H.
Qed.

Lemma chol_row_inv (m : nat) (Lprev : mat) (arow r : vec) :
  np.linalg.chol_row m Lprev arow = Ok r ->
  0 < get arow (length Lprev)
      - dot (np.linalg.chol_offdiag Lprev arow 0 [])
            (np.linalg.chol_offdiag Lprev arow 0 []) /\
  r = np.linalg.chol_offdiag Lprev arow 0 []
        ++ [sqrt (get arow (length Lprev)
                  - dot (np.linalg.chol_offdiag Lprev arow 0 [])
                        (np.linalg.chol_offdiag Lprev arow 0 []))]
        ++ np.zeros (m - length Lprev - 1).
Proof.
  unfold np.linalg.chol_row.
  destruct (Rlt_dec 0 _) as [Hd|Hd]; intros H; [|discriminate H].
  injection H as H. split; [exact Hd | symmetry; exact H].
Qed.

Lemma sqrt_mul_self (d : R) : 0 < d -> sqrt d * sqrt d = d.
Proof. intros H. apply sqrt_sqrt. lra. Qed.

Lemma sqrt_nonzero (d : R) : 0 < d -> sqrt d <> 0.
Proof. intros H. apply Rgt_not_eq, sqrt_lt_R0, H. Qed.

Ltac nth_elem k l :=
  lazymatch k with
  | O => lazymatch l with ?h :: _ => h end
  | S ?k' => lazymatch l with _ :: ?t => nth_elem k' t end
  end.

(** Name entry [k] of the row in [Hr], a quotient, and keep its defining
    equation in product form. *)
Ltac name_offdiag Hr Hd k :=
  lazymatch type of Hr with
  | _ = ?l =>
      let e := nth_elem k l in
      let x := fresh "l" in
      let Hx := fresh "Hx" in
      let Hp := fresh "Hp" in
      remember e as x eqn:Hx in Hr, Hd;
      lazymatch type of Hx with
      | _ = ?num / ?den =>
          assert (Hp : x * den = num) by (rewrite Hx; field; assumption);
          clear Hx
      end
  end.

(** Name the diagonal entry, a square root of a positive number. *)
Ltac name_diag Hr Hd k :=
  lazymatch type of Hr with
  | _ = ?l =>
      let e := nth_elem k l in
      let x := fresh "l" in
      let Hx := fresh "Hx" in
      let Hp := fresh "Hp" in
      let Hn := fresh "Hn" in
      lazymatch e with
      | sqrt ?d =>
          let Hg := fresh "Hg" in
          assert (Hp : sqrt d * sqrt d = d) by (apply sqrt_mul_self, Hd);
          assert (Hn : sqrt d <> 0) by (apply sqrt_nonzero, Hd);
          assert (Hg : 0 < sqrt d) by (apply sqrt_lt_R0, Hd);
          clear Hd;
          remember (sqrt d) as x eqn:Hx in Hr, Hp, Hn, Hg; clear Hx
      end
  end.

(** One row: invert the row computation. *)
Ltac chol_next H r Hd Hr :=
  apply chol_rows_inv in H; destruct H as (r & Hr & H);
  apply chol_row_inv in Hr; destruct Hr as [Hd Hr];
  arr_eval_in Hd; arr_eval_in Hr; cbn [app] in H.

Lemma cholesky_factor_lower (P L : mat) :
  shape 6 6 P ->
  np.linalg.cholesky P = Ok L ->
  shape 6 6 L /\
  (forall i j : nat, (j <= i < 6)%nat ->
     get2 (matmul L (transpose L)) i j = get2 P i j) /\
  (forall i j : nat, (i < j < 6)%nat -> get2 L i j = 0) /\
  (forall i : nat, (i < 6)%nat -> 0 < get2 L i i) /\
  (symmetric P -> matmul L (transpose L) = P).
Proof.
  intros HP HL. explode_shape HP. unfold np.linalg.cholesky in HL.
  cbn [length] in HL.
  chol_next HL r0 Hd Hr.
  name_diag Hr Hd 0%nat. subst r0.
  chol_next HL r1 Hd Hr.
  name_offdiag Hr Hd 0%nat. name_diag Hr Hd 1%nat. subst r1.
  chol_next HL r2 Hd Hr.
  name_offdiag Hr Hd 0%nat. name_offdiag Hr Hd 1%nat.
  name_diag Hr Hd 2%nat. subst r2.
  chol_next HL r3 Hd Hr.
  name_offdiag Hr Hd 0%nat. name_offdiag Hr Hd 1%nat.
  name_offdiag Hr Hd 2%nat. name_diag Hr Hd 3%nat. subst r3.
  chol_next HL r4 Hd Hr.
  name_offdiag Hr Hd 0%nat. name_offdiag Hr Hd 1%nat.
  name_offdiag Hr Hd 2%nat. name_offdiag Hr Hd 3%nat.
  name_diag Hr Hd 4%nat. subst r4.
  chol_next HL r5 Hd Hr.
  name_offdiag Hr Hd 0%nat. name_offdiag Hr Hd 1%nat.
  name_offdiag Hr Hd 2%nat. name_offdiag Hr Hd 3%nat.
  name_offdiag Hr Hd 4%nat. name_diag Hr Hd 5%nat. subst r5.
  simpl in HL. injection HL as HL. subst L.
  split; [shape_tac|].
  split.
  { intros i j Hij.
    do 6 (destruct i as [|i];
          [ do 6 (destruct j as [|j];
                  [ first [ exfalso; lia | arr_eval; lra ] | ]);
            exfalso; lia | ]).
    exfalso; lia. }
  split.
  { intros i j Hij.
    do 6 (destruct i as [|i];
          [ do 6 (destruct j as [|j];
                  [ first [ exfalso; lia | reflexivity ] | ]);
            exfalso; lia | ]).
    exfalso; lia. }
  split.
  { intros i Hi.
    do 6 (destruct i as [|i]; [arr_eval; assumption|]).
    exfalso; lia. }
  intros Hs.
  pose proof (Hs 0 1)%nat as S01. pose proof (Hs 0 2)%nat as S02.
  pose proof (Hs 0 3)%nat as S03. pose proof (Hs 0 4)%nat as S04.
  pose proof (Hs 0 5)%nat as S05. pose proof (Hs 1 2)%nat as S12.
  pose proof (Hs 1 3)%nat as S13. pose proof (Hs 1 4)%nat as S14.
  pose proof (Hs 1 5)%nat as S15. pose proof (Hs 2 3)%nat as S23.
  pose proof (Hs 2 4)%nat as S24. pose proof (Hs 2 5)%nat as S25.
  pose proof (Hs 3 4)%nat as S34. pose proof (Hs 3 5)%nat as S35.
  pose proof (Hs 4 5)%nat as S45.
  clear Hs.
  arr_eval_in S01. arr_eval_in S02. arr_eval_in S03. arr_eval_in S04.
  arr_eval_in S05. arr_eval_in S12. arr_eval_in S13. arr_eval_in S14.
  arr_eval_in S15. arr_eval_in S23. arr_eval_in S24. arr_eval_in S25.
  arr_eval_in S34. arr_eval_in S35. arr_eval_in S45.
  arr_eval. mat_eq ltac:(lra).
Qed.

(** X17. On a symmetric 6x6 matrix that it accepts, the Cholesky routine
    returns a lower-triangular 6x6 factor with positive diagonal whose
    product with its transpose is the matrix. *)
Theorem cholesky_factor (P L : mat) :
  shape 6 6 P -> symmetric P ->
  np.linalg.cholesky P = Ok L ->
  shape 6 6 L /\
  matmul L (transpose L) = P /\
  (forall i j : nat, (i < j < 6)%nat -> get2 L i j = 0) /\
  (forall i : nat, (i < 6)%nat -> 0 < get2 L i i).
Proof.
  intros HP Hs HL.
  destruct (cholesky_factor_lower P L HP HL) as (H1 & _ & H3 & H4 & H5).
  split; [exact H1|]. split; [exact (H5 Hs)|]. split; assumption.
Qed.

(** ** What recombination yields for a state of six entries *)

(** Heading and velocities of the recombined mean, heading variance of
    the recombined covariance. *)
Lemma recombine_heading (self : t) (L : mat) (cmd_vel : Twist) (dt : R) :
  length (state self) = 6%nat -> shape 6 6 L ->
  let pred := recombine self (sigma_points (state self) L) cmd_vel dt in
  get (fst pred) 2 = get (state self) 2 + angular_z cmd_vel * dt /\
  get (fst pred) 3 = linear_x cmd_vel /\
  get (fst pred) 4 = linear_y cmd_vel /\
  get (fst pred) 5 = angular_z cmd_vel /\
  get2 (snd pred) 2 2 = 4 / 7 * get2 (matmul L (transpose L)) 2 2.
Proof.
  intros Hx HL pred. subst pred.
  rewrite sigma_points_rows.
  destruct self as [x P pt]. cbn [state] in *.
  destruct cmd_vel as [vx vy om]. cbn [linear_x linear_y angular_z].
  explode_list Hx. explode_shape HL.
  arr_eval.
  repeat split; field.
Qed.

(** With a zero time delta the pose is kept and the pose block of the
    covariance is 4/7 of [L L^T]. *)
Lemma recombine_zero_dt (self : t) (L : mat) (cmd_vel : Twist) :
  length (state self) = 6%nat -> shape 6 6 L ->
  let pred := recombine self (sigma_points (state self) L) cmd_vel 0 in
  fst pred =
    [get (state self) 0; get (state self) 1; get (state self) 2;
     linear_x cmd_vel; linear_y cmd_vel; angular_z cmd_vel] /\
  snd pred = mscale (4 / 7) (pose_block (matmul L (transpose L))).
Proof.
  intros Hx HL pred. subst pred.
  rewrite sigma_points_rows.
  destruct self as [x P pt]. cbn [state] in *.
  destruct cmd_vel as [vx vy om]. cbn [linear_x linear_y angular_z].
  explode_list Hx. explode_shape HL.
  arr_eval.
  split; [vec_eq ltac:(field) | mat_eq ltac:(field)].
Qed.

(** The weighted scatter of the sigma points about the state. *)
Lemma sigma_scatter (x : vec) (L : mat) :
  length x = 6%nat -> shape 6 6 L ->
  weighted_cov cov_weights x (sigma_points x L) =
  mscale (4 / 7) (matmul L (transpose L)).
Proof.
  intros Hx HL. rewrite sigma_points_rows.
  explode_list Hx. explode_shape HL.
  arr_eval. mat_eq ltac:(field).
Qed.

(** ** What a published step leaves in the filter *)

Lemma callback_published_inv (self self' : t) (imu_data : Imu)
      (wheel_encoder_data : JointState) (cmd_vel : Twist) (m : Odometry) :
  callback self imu_data wheel_encoder_data cmd_vel = (self', Published m) ->
  exists (t0 : R) (L : mat),
    prev_time self = Some t0 /\
    np.linalg.cholesky (state_cov self) = Ok L /\
    self' = committed self L cmd_vel (stamp imu_data) (stamp imu_data - t0) /\
    m = publish_odometry self' (stamp imu_data).
Proof.
  unfold callback.
  destruct (prev_time self) as [t0|]; [|intros H; discriminate H].
  change (posterior (set_prev_time self (stamp imu_data)) imu_data
                    wheel_encoder_data cmd_vel (stamp imu_data - t0))
    with (posterior self imu_data wheel_encoder_data cmd_vel
                    (stamp imu_data - t0)).
  rewrite posterior_cases.
  destruct (measurement_of imu_data wheel_encoder_data) as [z|e];
    cbn [bind]; [|intros H; discriminate H].
  destruct (np.linalg.cholesky (state_cov self)) as [L|e];
    cbn [bind]; [|intros H; discriminate H].
  destruct (Req_dec_T _ 0) as [Hv|Hv]; [intros H; discriminate H|].
  intros H. injection H as Hs Hm.
  exists t0, L. repeat split; try reflexivity.
  - symmetry. exact Hs.
  - rewrite <- Hs. symmetry. exact Hm.
Qed.

Lemma committed_cov_entry (self : t) (L : mat) (cmd_vel : Twist)
      (now dt : R) (i j : nat) :
  (i < 3)%nat -> (j < 3)%nat ->
  get2 (state_cov (committed self L cmd_vel now dt)) i j =
  get2 (snd (recombine self (sigma_points (state self) L) cmd_vel dt)) i j
  + (if Nat.eqb i j then epsilon else 0).
Proof.
  intros Hi Hj. unfold committed. cbn [state_cov].
  rewrite (recombine_pose_block self _ cmd_vel dt
             (sigma_points_length (state self) L)).
  generalize (snd (recombine self (sigma_points (state self) L) cmd_vel dt)).
  intros X. generalize (get2 X). intros p.
  do 3 (destruct i as [|i];
        [ do 3 (destruct j as [|j]; [arr_eval; ring|]); exfalso; lia | ]).
  exfalso; lia.
Qed.

Lemma committed_velocity_block (self : t) (L : mat) (cmd_vel : Twist)
      (now dt : R) (i j : nat) :
  (i < 6)%nat -> (j < 6)%nat -> (3 <= i \/ 3 <= j)%nat ->
  get2 (state_cov (committed self L cmd_vel now dt)) i j =
  (if Nat.eqb i j then epsilon else 0).
Proof.
  intros Hi Hj Hij. unfold committed. cbn [state_cov].
  rewrite (recombine_pose_block self _ cmd_vel dt
             (sigma_points_length (state self) L)).
  generalize (snd (recombine self (sigma_points (state self) L) cmd_vel dt)).
  intros X. generalize (get2 X). intros p.
  do 6 (destruct i as [|i];
        [ do 6 (destruct j as [|j];
                [ first [ exfalso; lia | arr_eval; ring ] | ]);
          exfalso; lia | ]).
  exfalso; lia.
Qed.

Lemma committed_shape (self : t) (L : mat) (cmd_vel : Twist) (now dt : R) :
  length (state (committed self L cmd_vel now dt)) = 6%nat /\
  shape 6 6 (state_cov (committed self L cmd_vel now dt)).
Proof.
  unfold committed. cbn [state state_cov]. split.
  - apply recombine_mean_length, sigma_points_length.
  - rewrite (recombine_pose_block self _ cmd_vel dt
               (sigma_points_length (state self) L)).
    shape_tac.
Qed.

(** The pose block of the weighted covariance is symmetric with
    non-negative diagonal. *)
Lemma weighted_cov_pose_symmetric (pts : mat) (m0 : vec) (vx vy om : R) :
  length pts = 13%nat ->
  let f := fun p : vec => [get p 0; get p 1; get p 2; vx; vy; om] in
  let W := weighted_cov cov_weights (f m0) (map f pts) in
  get2 W 0 1 = get2 W 1 0 /\ get2 W 0 2 = get2 W 2 0 /\
  get2 W 1 2 = get2 W 2 1 /\
  0 <= get2 W 0 0 /\ 0 <= get2 W 1 1 /\ 0 <= get2 W 2 2.
Proof.
  intros H f W. subst W. explode_list H. subst f.
  repeat match goal with
         | r : vec |- _ =>
             generalize (get r 0) (get r 1) (get r 2); intros ? ? ?; clear r
         end.
  arr_eval.
  repeat split; try field;
    repeat apply Rplus_le_le_0_compat; try lra;
    (apply Rmult_le_pos; [lra | apply Rle_0_sqr]).
Qed.

Lemma recombine_pose_symmetric (self : t) (sigma : mat) (cmd_vel : Twist)
      (dt : R) :
  length sigma = 13%nat ->
  let W := snd (recombine self sigma cmd_vel dt) in
  get2 W 0 1 = get2 W 1 0 /\ get2 W 0 2 = get2 W 2 0 /\
  get2 W 1 2 = get2 W 2 1 /\
  0 <= get2 W 0 0 /\ 0 <= get2 W 1 1 /\ 0 <= get2 W 2 2.
Proof.
  intros H W. subst W. rewrite recombine_sums by exact H. cbn [snd].
  rewrite propagated_rows, predict_fst.
  apply (weighted_cov_pose_symmetric _
           [get (state self) 0 +
              (linear_x cmd_vel * cos (get (state self) 2) -
               linear_y cmd_vel * sin (get (state self) 2)) * dt;
            get (state self) 1 +
              (linear_y cmd_vel * cos (get (state self) 2) +
               linear_x cmd_vel * sin (get (state self) 2)) * dt;
            get (state self) 2 + angular_z cmd_vel * dt]).
  unfold propagated. rewrite length_map. exact H.
Qed.

Lemma get2_out_of_range (P : mat) (i j : nat) :
  shape 6 6 P -> (6 <= i \/ 6 <= j)%nat -> get2 P i j = 0.
Proof.
  intros HP Hij. explode_shape HP.
  unfold get2, get, row.
  do 6 (destruct i as [|i];
        [ do 6 (destruct j as [|j]; [exfalso; lia|]);
          simpl; destruct j; reflexivity | ]).
  simpl. destruct i; destruct j; reflexivity.
Qed.

Lemma committed_symmetric (self : t) (L : mat) (cmd_vel : Twist)
      (now dt : R) :
  symmetric (state_cov (committed self L cmd_vel now dt)).
Proof.
  intros i j.
  pose proof (proj2 (committed_shape self L cmd_vel now dt)) as Hsh.
  destruct (le_lt_dec 6 i) as [Hi|Hi].
  { rewrite !(get2_out_of_range _ _ _ Hsh) by lia. reflexivity. }
  destruct (le_lt_dec 6 j) as [Hj|Hj].
  { rewrite !(get2_out_of_range _ _ _ Hsh) by lia. reflexivity. }
  destruct (le_lt_dec 3 i) as [Hi3|Hi3].
  { rewrite !committed_velocity_block by lia.
    rewrite (Nat.eqb_sym j i). reflexivity. }
  destruct (le_lt_dec 3 j) as [Hj3|Hj3].
  { rewrite !committed_velocity_block by lia.
    rewrite (Nat.eqb_sym j i). reflexivity. }
  rewrite !committed_cov_entry by lia.
  rewrite (Nat.eqb_sym j i). f_equal.
  pose proof (recombine_pose_symmetric self _ cmd_vel dt
                (sigma_points_length (state self) L))
    as (H01 & H02 & H12 & _).
  cbv zeta in H01, H02, H12.
  do 3 (destruct i as [|i];
        [ do 3 (destruct j as [|j];
                [ first [ reflexivity | assumption
                        | symmetry; assumption ] | ]);
          exfalso; lia | ]).
  exfalso; lia.
Qed.

(** ** The filter at start-up *)

Lemma started_shape :
  length (state started) = 6%nat /\ shape 6 6 (state_cov started).
Proof. split; [reflexivity | shape_tac]. Qed.

Lemma started_symmetric : symmetric (state_cov started).
Proof.
  intros i j.
  pose proof (proj2 started_shape) as Hsh.
  destruct (le_lt_dec 6 i) as [Hi|Hi].
  { rewrite !(get2_out_of_range _ _ _ Hsh) by lia. reflexivity. }
  destruct (le_lt_dec 6 j) as [Hj|Hj].
  { rewrite !(get2_out_of_range _ _ _ Hsh) by lia. reflexivity. }
  do 6 (destruct i as [|i];
        [ do 6 (destruct j as [|j]; [arr_eval; ring|]); exfalso; lia | ]).
  exfalso; lia.
Qed.

(** ** Heading, velocities and heading variance after a step *)

(** X4. A published step sets the heading to the old heading plus
    [omega dt], the three velocities to the command, and the heading
    variance to 4/7 of the old one plus [epsilon], whatever was
    measured. *)
Theorem published_heading_and_velocities (self self' : t) (imu_data : Imu)
        (wheel_encoder_data : JointState) (cmd_vel : Twist) (m : Odometry)
        (t0 : R) :
  callback self imu_data wheel_encoder_data cmd_vel = (self', Published m) ->
  prev_time self = Some t0 ->
  length (state self) = 6%nat -> shape 6 6 (state_cov self) ->
  get (state self') 2 =
    get (state self) 2 + angular_z cmd_vel * (stamp imu_data - t0) /\
  get (state self') 3 = linear_x cmd_vel /\
  get (state self') 4 = linear_y cmd_vel /\
  get (state self') 5 = angular_z cmd_vel /\
  get2 (state_cov self') 2 2 = 4 / 7 * get2 (state_cov self) 2 2 + epsilon.
Proof.
  intros Hcb Hp Hx HP.
  destruct (callback_published_inv _ _ _ _ _ _ Hcb)
    as (t1 & L & Hp1 & HL & Hs & _).
  rewrite Hp in Hp1. injection Hp1 as Hp1. subst t1.
  destruct (cholesky_factor_lower _ _ HP HL) as (HLs & Hlow & _).
  destruct (recombine_heading self L cmd_vel (stamp imu_data - t0) Hx HLs)
    as (H2 & H3 & H4 & H5 & H22).
  subst self'.
  rewrite (committed_cov_entry self L cmd_vel _ _ 2 2) by lia.
  cbn [Nat.eqb]. rewrite H22, (Hlow 2%nat 2%nat) by lia.
  unfold committed. cbn [state].
  repeat split; assumption || reflexivity.
Qed.

(** The second callback of the run. *)
Lemma published_heading_and_velocities_witness :
  let self' :=
    committed started (scaled_eye6 (sqrt 0.1)) cmd_forward 1 (1 - 0) in
  get (state self') 2 =
    get (state started) 2 + angular_z cmd_forward * (stamp (imu_at 1) - 0) /\
  get (state self') 3 = linear_x cmd_forward /\
  get (state self') 4 = linear_y cmd_forward /\
  get (state self') 5 = angular_z cmd_forward /\
  get2 (state_cov self') 2 2 = 4 / 7 * get2 (state_cov started) 2 2 + epsilon.
Proof.
  intros self'.
  apply (published_heading_and_velocities
           started self' (imu_at 1) wheels_still cmd_forward
           (publish_odometry self' 1) 0).
  - apply started_step.
  - reflexivity.
  - reflexivity.
  - split; [reflexivity | repeat constructor].
Defined.

(** ** A step with time delta zero *)

(** X5. When the new sample carries the previous timestamp, a published
    step keeps the pose, overwrites the velocities by the command, and
    shrinks the pose block of the covariance to 4/7 of itself plus
    [epsilon] on the diagonal. *)
Theorem zero_dt_step (self self' : t) (imu_data : Imu)
        (wheel_encoder_data : JointState) (cmd_vel : Twist) (m : Odometry)
        (i j : nat) :
  callback self imu_data wheel_encoder_data cmd_vel = (self', Published m) ->
  prev_time self = Some (stamp imu_data) ->
  length (state self) = 6%nat -> shape 6 6 (state_cov self) ->
  symmetric (state_cov self) ->
  (i < 3)%nat -> (j < 3)%nat ->
  state self' =
    [get (state self) 0; get (state self) 1; get (state self) 2;
     linear_x cmd_vel; linear_y cmd_vel; angular_z cmd_vel] /\
  get2 (state_cov self') i j =
    4 / 7 * get2 (state_cov self) i j + (if Nat.eqb i j then epsilon else 0).
Proof.
  intros Hcb Hp Hx HP Hsym Hi Hj.
  destruct (callback_published_inv _ _ _ _ _ _ Hcb)
    as (t1 & L & Hp1 & HL & Hs & _).
  rewrite Hp in Hp1. injection Hp1 as Hp1. subst t1.
  replace (stamp imu_data - stamp imu_data) with 0 in Hs by ring.
  destruct (cholesky_factor_lower _ _ HP HL) as (HLs & _ & _ & _ & Hfull).
  destruct (recombine_zero_dt self L cmd_vel Hx HLs) as [Hm Hc].
  subst self'. split.
  - unfold committed. cbn [state]. exact Hm.
  - rewrite (committed_cov_entry self L cmd_vel _ _ i j Hi Hj).
    f_equal. rewrite Hc, (Hfull Hsym). unfold pose_block.
    generalize (get2 (state_cov self)). intros p.
    do 3 (destruct i as [|i];
          [ do 3 (destruct j as [|j]; [arr_eval; ring|]); exfalso; lia | ]).
    exfalso; lia.
Qed.

(** Two samples at time 0, entry (0, 0). *)
Lemma zero_dt_step_witness :
  let self' :=
    committed started (scaled_eye6 (sqrt 0.1)) cmd_forward 0 (0 - 0) in
  state self' =
    [get (state started) 0; get (state started) 1; get (state started) 2;
     linear_x cmd_forward; linear_y cmd_forward; angular_z cmd_forward] /\
  get2 (state_cov self') 0 0 =
    4 / 7 * get2 (state_cov started) 0 0
    + (if Nat.eqb 0 0 then epsilon else 0).
Proof.
  intros self'.
  apply (zero_dt_step started self' (imu_at 0) wheels_still cmd_forward
                      (publish_odometry self' 0) 0 0).
  - apply started_step.
  - reflexivity.
  - reflexivity.
  - split; [reflexivity | repeat constructor].
  - exact started_symmetric.
  - lia.
  - lia.
Defined.

(** ** The spread of the sigma points *)

(** X6. The weighted scatter of the thirteen sigma points about the
    state, under the covariance weights, is 4/7 of the covariance they
    were drawn from. *)
Theorem sigma_scatter_of_covariance (x : vec) (P L : mat) :
  length x = 6%nat -> shape 6 6 P -> symmetric P ->
  np.linalg.cholesky P = Ok L ->
  weighted_cov cov_weights x (sigma_points x L) = mscale (4 / 7) P.
Proof.
  intros Hx HP Hsym HL.
  destruct (cholesky_factor_lower _ _ HP HL) as (HLs & _ & _ & _ & Hfull).
  rewrite (sigma_scatter x L Hx HLs), (Hfull Hsym). reflexivity.
Qed.

(** The sigma points of the initial filter. *)
Lemma sigma_scatter_of_covariance_witness :
  weighted_cov cov_weights (state init)
               (sigma_points (state init) (scaled_eye6 (sqrt 0.1))) =
  mscale (4 / 7) (state_cov init).
Proof.
  apply (sigma_scatter_of_covariance (state init) (state_cov init)
                                     (scaled_eye6 (sqrt 0.1))).
  - reflexivity.
  - split; [reflexivity | repeat constructor].
  - exact started_symmetric.
  - exact cholesky_init.
Defined.

(** ** The velocities of the recombined mean *)

Lemma weighted_mean_velocities (pts : mat) (vx vy om : R) :
  length pts = 13%nat ->
  let f := fun p : vec => [get p 0; get p 1; get p 2; vx; vy; om] in
  let M := weighted_mean mean_weights (map f pts) in
  get M 3 = vx /\ get M 4 = vy /\ get M 5 = om.
Proof.
  intros H f M. subst M. explode_list H. subst f.
  repeat match goal with
         | r : vec |- _ =>
             generalize (get r 0) (get r 1) (get r 2); intros ? ? ?; clear r
         end.
  arr_eval. repeat split; field.
Qed.

Lemma committed_velocities (self : t) (L : mat) (cmd_vel : Twist)
      (now dt : R) :
  get (state (committed self L cmd_vel now dt)) 3 = linear_x cmd_vel /\
  get (state (committed self L cmd_vel now dt)) 4 = linear_y cmd_vel /\
  get (state (committed self L cmd_vel now dt)) 5 = angular_z cmd_vel.
Proof.
  unfold committed. cbn [state].
  rewrite recombine_sums by apply sigma_points_length. cbn [fst].
  rewrite propagated_rows.
  apply weighted_mean_velocities.
  unfold propagated. rewrite length_map. apply sigma_points_length.
Qed.

(** ** The published twist *)

(** X7. Every published message carries the commanded velocity as its
    twist, and a twist covariance that is [epsilon] at the three
    diagonal slots (0,0), (1,1), (5,5) and zero everywhere else,
    whatever the filter held and whatever was measured. *)
Theorem published_twist (self self' : t) (imu_data : Imu)
        (wheel_encoder_data : JointState) (cmd_vel : Twist) (m : Odometry) :
  callback self imu_data wheel_encoder_data cmd_vel = (self', Published m) ->
  twist_linear_x m = linear_x cmd_vel /\
  twist_linear_y m = linear_y cmd_vel /\
  twist_angular_z m = angular_z cmd_vel /\
  twist_covariance m =
    [ epsilon; 0; 0; 0; 0; 0;
      0; epsilon; 0; 0; 0; 0;
      0; 0; 0; 0; 0; 0;
      0; 0; 0; 0; 0; 0;
      0; 0; 0; 0; 0; 0;
      0; 0; 0; 0; 0; epsilon ].
Proof.
  intros Hcb.
  destruct (callback_published_inv _ _ _ _ _ _ Hcb)
    as (t0 & L & _ & _ & Hs & Hm).
  subst m self'.
  destruct (committed_velocities self L cmd_vel (stamp imu_data)
                                 (stamp imu_data - t0)) as (H3 & H4 & H5).
  unfold publish_odometry.
  cbn [twist_linear_x twist_linear_y twist_angular_z twist_covariance].
  split; [exact H3|]. split; [exact H4|]. split; [exact H5|].
  pose proof (committed_velocity_block self L cmd_vel (stamp imu_data)
                (stamp imu_data - t0)) as Hv.
  pose proof (Hv 3 3)%nat as H33. pose proof (Hv 4 4)%nat as H44.
  pose proof (Hv 5 5)%nat as H55. pose proof (Hv 5 3)%nat as H53.
  pose proof (Hv 4 5)%nat as H45. pose proof (Hv 5 4)%nat as H54.
  cbn [Nat.eqb] in H33, H44, H55, H53, H45, H54.
  revert H33 H44 H55 H53 H45 H54.
  generalize (get2 (state_cov (committed self L cmd_vel (stamp imu_data)
                                         (stamp imu_data - t0)))).
  intros p H33 H44 H55 H53 H45 H54.
  specialize (H33 ltac:(lia) ltac:(lia) ltac:(lia)).
  specialize (H44 ltac:(lia) ltac:(lia) ltac:(lia)).
  specialize (H55 ltac:(lia) ltac:(lia) ltac:(lia)).
  specialize (H53 ltac:(lia) ltac:(lia) ltac:(lia)).
  specialize (H45 ltac:(lia) ltac:(lia) ltac:(lia)).
  specialize (H54 ltac:(lia) ltac:(lia) ltac:(lia)).
  arr_eval. rewrite H33, H44, H55, H53, H45, H54. reflexivity.
Qed.

(** The message of the second callback of the run. *)
Lemma published_twist_witness :
  let self' :=
    committed started (scaled_eye6 (sqrt 0.1)) cmd_forward 1 (1 - 0) in
  let m := publish_odometry self' 1 in
  twist_linear_x m = linear_x cmd_forward /\
  twist_linear_y m = linear_y cmd_forward /\
  twist_angular_z m = angular_z cmd_forward /\
  twist_covariance m =
    [ epsilon; 0; 0; 0; 0; 0;
      0; epsilon; 0; 0; 0; 0;
      0; 0; 0; 0; 0; 0;
      0; 0; 0; 0; 0; 0;
      0; 0; 0; 0; 0; 0;
      0; 0; 0; 0; 0; epsilon ].
Proof.
  intros self' m.
  apply (published_twist started self' (imu_at 1) wheels_still cmd_forward m).
  apply started_step.
Defined.

(** ** The covariance after a published step *)

(** X9. After a published step the covariance has no velocity block
    left: every entry in a velocity row or column is [epsilon] on the
    diagonal and zero off it, and every diagonal entry is at least
    [epsilon]. *)
Theorem published_covariance_structure (self self' : t) (imu_data : Imu)
        (wheel_encoder_data : JointState) (cmd_vel : Twist) (m : Odometry)
        (i j : nat) :
  callback self imu_data wheel_encoder_data cmd_vel = (self', Published m) ->
  (i < 6)%nat -> (j < 6)%nat ->
  ((3 <= i \/ 3 <= j)%nat ->
   get2 (state_cov self') i j = (if Nat.eqb i j then epsilon else 0)) /\
  epsilon <= get2 (state_cov self') i i.
Proof.
  intros Hcb Hi Hj.
  destruct (callback_published_inv _ _ _ _ _ _ Hcb)
    as (t0 & L & _ & _ & Hs & _).
  subst self'. split.
  - intros Hij. apply committed_velocity_block; assumption.
  - destruct (le_lt_dec 3 i) as [H3|H3].
    + rewrite committed_velocity_block by lia.
      rewrite Nat.eqb_refl. lra.
    + rewrite committed_cov_entry by lia. rewrite Nat.eqb_refl.
      pose proof (recombine_pose_symmetric self _ cmd_vel
                    (stamp imu_data - t0)
                    (sigma_points_length (state self) L))
        as (_ & _ & _ & H00 & H11 & H22).
      cbv zeta in H00, H11, H22.
      do 3 (destruct i as [|i]; [lra|]). exfalso; lia.
Qed.

(** The second callback of the run, entry (0, 4). *)
Lemma published_covariance_structure_witness :
  let self' :=
    committed started (scaled_eye6 (sqrt 0.1)) cmd_forward 1 (1 - 0) in
  ((3 <= 0 \/ 3 <= 4)%nat ->
   get2 (state_cov self') 0 4 = (if Nat.eqb 0 4 then epsilon else 0)) /\
  epsilon <= get2 (state_cov self') 0 0.
Proof.
  intros self'.
  apply (published_covariance_structure
           started self' (imu_at 1) wheels_still cmd_forward
           (publish_odometry self' 1) 0 4).
  - apply started_step.
  - lia.
  - lia.
Defined.

(** ** Timestamps across calls *)

Lemma callback_prev_time (self : t) (imu_data : Imu)
      (wheel_encoder_data : JointState) (cmd_vel : Twist) :
  prev_time (fst (callback self imu_data wheel_encoder_data cmd_vel)) =
  Some (stamp imu_data).
Proof.
  unfold callback. destruct (prev_time self) as [t0|]; [|reflexivity].
  destruct (posterior _ _ _ _ _) as [[x P]|e]; reflexivity.
Qed.

(** X10. Every call records its timestamp, also one that raises: the
    call that follows is never a first call, and its time delta is the
    difference of the two timestamps. *)
Theorem consecutive_callbacks (self : t) (imu1 imu2 : Imu)
        (wheel1 wheel2 : JointState) (cmd1 cmd2 : Twist) :
  let self1 := fst (callback self imu1 wheel1 cmd1) in
  prev_time self1 = Some (stamp imu1) /\
  snd (callback self1 imu2 wheel2 cmd2) <> NoEstimate /\
  callback self1 imu2 wheel2 cmd2 =
    match posterior self1 imu2 wheel2 cmd2 (stamp imu2 - stamp imu1) with
    | Ok (x, P) =>
        let self2 := {| state := x; state_cov := P;
                        prev_time := Some (stamp imu2) |} in
        (self2, Published (publish_odometry self2 (stamp imu2)))
    | Raise e => (set_prev_time self1 (stamp imu2), Raised e)
    end.
Proof.
  intros self1.
  pose proof (callback_prev_time self imu1 wheel1 cmd1) as Hp.
  fold self1 in Hp.
  split; [exact Hp|].
  assert (H : callback self1 imu2 wheel2 cmd2 =
              match posterior self1 imu2 wheel2 cmd2
                              (stamp imu2 - stamp imu1) with
              | Ok (x, P) =>
                  let self2 := {| state := x; state_cov := P;
                                  prev_time := Some (stamp imu2) |} in
                  (self2, Published (publish_odometry self2 (stamp imu2)))
              | Raise e => (set_prev_time self1 (stamp imu2), Raised e)
              end).
  { unfold callback. rewrite Hp.
    change (posterior (set_prev_time self1 (stamp imu2)) imu2 wheel2 cmd2
                      (stamp imu2 - stamp imu1))
      with (posterior self1 imu2 wheel2 cmd2 (stamp imu2 - stamp imu1)).
    destruct (posterior self1 imu2 wheel2 cmd2 (stamp imu2 - stamp imu1))
      as [[x P]|e]; reflexivity. }
  split; [|exact H].
  rewrite H.
  destruct (posterior self1 imu2 wheel2 cmd2 (stamp imu2 - stamp imu1))
    as [[x P]|e]; cbn; discriminate.
Qed.

(** ** A covariance that has no Cholesky factor *)

(** X11. When the first diagonal entry of the covariance is not
    positive, a call with a previous timestamp and a fitting wheel
    sample raises [LinAlgError]: the timestamp is recorded, state and
    covariance are kept and nothing is published. *)
Theorem nonpositive_variance_raises (self : t) (imu_data : Imu)
        (wheel_encoder_data : JointState) (cmd_vel : Twist) (t0 : R)
        (r : vec) (rest : mat) :
  prev_time self = Some t0 ->
  wheel_sample_fits wheel_encoder_data ->
  state_cov self = r :: rest ->
  get r 0 <= 0 ->
  callback self imu_data wheel_encoder_data cmd_vel =
    ({| state := state self; state_cov := state_cov self;
        prev_time := Some (stamp imu_data) |}, Raised LinAlgError).
Proof.
  intros Hp Hw HP Hr. unfold callback. rewrite Hp.
  change (posterior (set_prev_time self (stamp imu_data)) imu_data
                    wheel_encoder_data cmd_vel (stamp imu_data - t0))
    with (posterior self imu_data wheel_encoder_data cmd_vel
                    (stamp imu_data - t0)).
  rewrite posterior_cases.
  apply (measurement_of_ok_iff imu_data) in Hw. destruct Hw as [z Hz].
  rewrite Hz. cbn [bind].
  assert (HL : np.linalg.cholesky (state_cov self) = Raise LinAlgError).
  { rewrite HP. unfold np.linalg.cholesky. cbn [np.linalg.chol_rows].
    unfold np.linalg.chol_row. cbn [np.linalg.chol_offdiag length].
    destruct (Rlt_dec 0 (get r 0 - dot [] [])) as [Hd|Hd];
      [|reflexivity].
    exfalso. unfold dot, rsum in Hd. simpl in Hd. lra. }
  rewrite HL. reflexivity.
Qed.

(** A filter whose covariance is zero. *)
Lemma nonpositive_variance_raises_witness :
  callback {| state := np.zeros 6; state_cov := np.zeros2 6 6;
              prev_time := Some 0 |}
           (imu_at 1) wheels_still cmd_forward =
    ({| state := np.zeros 6; state_cov := np.zeros2 6 6;
        prev_time := Some 1 |}, Raised LinAlgError).
Proof.
  apply (nonpositive_variance_raises
           {| state := np.zeros 6; state_cov := np.zeros2 6 6;
              prev_time := Some 0 |}
           (imu_at 1) wheels_still cmd_forward 0
           (np.zeros 6) (repeat (np.zeros 6) 5)).
  - reflexivity.
  - left. reflexivity.
  - reflexivity.
  - unfold get. simpl. lra.
Defined.

(** ** The orientation handed to the quaternion conversion *)

(** X12. The 4x4 matrix that [publish_odometry] builds from the heading
    is a proper rotation: its product with its transpose is the
    identity, on either side, and its determinant is 1. *)
Theorem orientation_is_rotation (self : t) (current_t : R) :
  let M := orientation_matrix (publish_odometry self current_t) in
  matmul M (transpose M) = np.eye 4 /\
  matmul (transpose M) M = np.eye 4 /\
  np.linalg.det M = 1.
Proof.
  intros M. subst M. unfold publish_odometry. cbn [orientation_matrix].
  pose proof (sin2_cos2 (get (state self) 2)) as H. unfold Rsqr in H.
  revert H.
  generalize (sin (get (state self) 2)) (cos (get (state self) 2)).
  intros s c H.
  split; [|split].
  - arr_eval. mat_eq ltac:(lra).
  - arr_eval. mat_eq ltac:(lra).
  - arr_eval. lra.
Qed.

(** ** Propagation composes *)

(** X13. Without angular command, propagating by [dt1] and then by
    [dt2] is propagating by [dt1 + dt2]. *)
Theorem predict_additive (self : t) (st : vec) (cmd_vel : Twist)
        (dt1 dt2 : R) :
  angular_z cmd_vel = 0 ->
  fst (predict self (fst (predict self st cmd_vel dt1)) cmd_vel dt2) =
  fst (predict self st cmd_vel (dt1 + dt2)).
Proof.
  intros Hom. rewrite !predict_fst. rewrite Hom.
  unfold get. cbn [nth].
  replace (nth 2 st 0 + 0 * dt1) with (nth 2 st 0) by ring.
  vec_eq ltac:(ring).
Qed.

(** Driving forward for 1 and then for 2. *)
Lemma predict_additive_witness :
  fst (predict started (fst (predict started [1; 2; 3; 0; 0; 0]
                                     cmd_forward 1)) cmd_forward 2) =
  fst (predict started [1; 2; 3; 0; 0; 0] cmd_forward (1 + 2)).
Proof.
  apply (predict_additive started [1; 2; 3; 0; 0; 0] cmd_forward 1 2).
  reflexivity.
Defined.

(** ** The two published covariances *)

(** X14. Whatever the filter covariance is, the published pose
    covariance is a symmetric matrix, and the published twist covariance
    has no entry for the pair (vx, vy): its slots (0,1) and (1,0) are
    zero. *)
Theorem published_covariances_layout (self : t) (current_t : R)
        (i j : nat) :
  (i < 6)%nat -> (j < 6)%nat ->
  get (pose_covariance (publish_odometry self current_t)) (6 * i + j) =
  get (pose_covariance (publish_odometry self current_t)) (6 * j + i) /\
  get (twist_covariance (publish_odometry self current_t)) (6 * 0 + 1) = 0 /\
  get (twist_covariance (publish_odometry self current_t)) (6 * 1 + 0) = 0.
Proof.
  intros Hi Hj. unfold publish_odometry.
  cbn [pose_covariance twist_covariance].
  generalize (get2 (state_cov self)). intros p.
  split; [|split; reflexivity].
  do 6 (destruct i as [|i];
        [ do 6 (destruct j as [|j]; [reflexivity|]); exfalso; lia | ]).
  exfalso; lia.
Qed.

(** The initial filter, slots (0, 5) and (5, 0). *)
Lemma published_covariances_layout_witness :
  get (pose_covariance (publish_odometry init 0)) (6 * 0 + 5) =
  get (pose_covariance (publish_odometry init 0)) (6 * 5 + 0) /\
  get (twist_covariance (publish_odometry init 0)) (6 * 0 + 1) = 0 /\
  get (twist_covariance (publish_odometry init 0)) (6 * 1 + 0) = 0.
Proof.
  apply (published_covariances_layout init 0 0 5); lia.
Defined.

(** ** The committed covariance has a Cholesky factor *)

(** One row, forwards: the off-diagonal entries [acc0] and the pivot
    [d0] are given; [tacd] proves the pivot positive. *)
Ltac nonzero_tac :=
  repeat split; first [assumption | apply sqrt_nonzero; assumption].

Ltac chol_fwd acc0 d0 tacd :=
  erewrite chol_rows_step;
  [ | apply chol_row_ok with (acc := acc0) (d := d0);
      [ arr_eval; vec_eq ltac:(field; nonzero_tac)
      | arr_eval; field; nonzero_tac
      | tacd ] ];
  cbn [app length Nat.sub np.zeros repeat].

Lemma cholesky_pose_plus_eps
      (w00 w10 w11 w20 w21 w22 e : R)
      (u01 u02 u03 u04 u05 u12 u13 u14 u15 u23 u24 u25 u34 u35 u45 : R) :
  0 < e ->
  (forall u v t : R,
      0 <= u * u * w00 + 2 * (u * v) * w10 + 2 * (u * t) * w20
           + v * v * w11 + 2 * (v * t) * w21 + t * t * w22) ->
  exists L : mat,
    np.linalg.cholesky
      [ [w00 + e; u01; u02; u03; u04; u05];
        [w10; w11 + e; u12; u13; u14; u15];
        [w20; w21; w22 + e; u23; u24; u25];
        [0; 0; 0; e; u34; u35];
        [0; 0; 0; 0; e; u45];
        [0; 0; 0; 0; 0; e] ] = Ok L.
Proof.
  intros He Hpsd.
  unfold np.linalg.cholesky. cbn [length].
  (* row 0 *)
  assert (H0 : 0 < w00 + e).
  { pose proof (Hpsd 1 0 0). lra. }
  chol_fwd (@nil R) (w00 + e) ltac:(exact H0).
  pose proof (sqrt_mul_self _ H0) as Hl0.
  pose proof (sqrt_nonzero _ H0) as Hn0.
  revert Hl0 Hn0. generalize (sqrt (w00 + e)). intros l00 Hl0 Hn0.
  assert (E00 : w00 = l00 * l00 - e) by lra. subst w00. clear Hl0 H0.
  (* row 1 *)
  set (l10 := w10 / l00).
  assert (E10 : w10 = l10 * l00) by (unfold l10; field; exact Hn0).
  clearbody l10. subst w10.
  assert (H1 : 0 < w11 + e - l10 * l10).
  { pose proof (Hpsd (- l10 / l00) 1 0) as H.
    assert (E : (- l10 / l00) * (- l10 / l00) * (l00 * l00 - e)
                + 2 * ((- l10 / l00) * 1) * (l10 * l00)
                + 2 * ((- l10 / l00) * 0) * w20 + 1 * 1 * w11
                + 2 * (1 * 0) * w21 + 0 * 0 * w22
                = w11 + e - l10 * l10
                  - e * ((- l10 / l00) * (- l10 / l00) + 1))
      by (field; exact Hn0).
    rewrite E in H.
    pose proof (Rle_0_sqr (- l10 / l00)) as Hsq. unfold Rsqr in Hsq.
    pose proof (Rmult_le_pos _ _ (Rlt_le _ _ He) Hsq). lra. }
  chol_fwd [l10] (w11 + e - l10 * l10) ltac:(exact H1).
  pose proof (sqrt_mul_self _ H1) as Hl1.
  pose proof (sqrt_nonzero _ H1) as Hn1.
  revert Hl1 Hn1. generalize (sqrt (w11 + e - l10 * l10)).
  intros l11 Hl1 Hn1.
  assert (E11 : w11 = l11 * l11 + l10 * l10 - e) by lra.
  subst w11. clear Hl1 H1.
  (* row 2 *)
  set (l20 := w20 / l00).
  assert (E20 : w20 = l20 * l00) by (unfold l20; field; exact Hn0).
  clearbody l20. subst w20.
  set (l21 := (w21 - l20 * l10) / l11).
  assert (E21 : w21 = l21 * l11 + l20 * l10)
    by (unfold l21; field; exact Hn1).
  clearbody l21. subst w21.
  assert (H2 : 0 < w22 + e - (l20 * l20 + l21 * l21)).
  { set (v1 := - l21 / l11). set (v0 := - (l10 * v1 + l20) / l00).
    pose proof (Hpsd v0 v1 1) as H.
    assert (E : v0 * v0 * (l00 * l00 - e) + 2 * (v0 * v1) * (l10 * l00)
                + 2 * (v0 * 1) * (l20 * l00)
                + v1 * v1 * (l11 * l11 + l10 * l10 - e)
                + 2 * (v1 * 1) * (l21 * l11 + l20 * l10) + 1 * 1 * w22
                = w22 + e - (l20 * l20 + l21 * l21)
                  - e * (v0 * v0 + v1 * v1 + 1))
      by (unfold v0, v1; field; split; assumption).
    rewrite E in H.
    pose proof (Rle_0_sqr v0) as Hs0. pose proof (Rle_0_sqr v1) as Hs1.
    unfold Rsqr in Hs0, Hs1.
    pose proof (Rmult_le_pos _ _ (Rlt_le _ _ He) Hs0).
    pose proof (Rmult_le_pos _ _ (Rlt_le _ _ He) Hs1). lra. }
  chol_fwd [l20; l21] (w22 + e - (l20 * l20 + l21 * l21)) ltac:(exact H2).
  pose proof (sqrt_nonzero _ H2) as Hn2.
  revert Hn2. generalize (sqrt (w22 + e - (l20 * l20 + l21 * l21))).
  intros l22 Hn2.
  (* rows 3, 4, 5 *)
  chol_fwd [0; 0; 0] e ltac:(exact He).
  pose proof (sqrt_nonzero _ He) as Hn3.
  revert Hn3. generalize (sqrt e). intros l33 Hn3.
  chol_fwd [0; 0; 0; 0] e ltac:(exact He).
  chol_fwd [0; 0; 0; 0; 0] e ltac:(exact He).
  eexists. reflexivity.
Qed.

(** The pose block of the recombined covariance is positive
    semi-definite: one weighted outer product at a time. *)
Lemma psd_add_outer (A00 A10 A20 A11 A21 A22 w a b c : R) :
  0 <= w ->
  (forall u v t : R,
      0 <= u * u * A00 + 2 * (u * v) * A10 + 2 * (u * t) * A20
           + v * v * A11 + 2 * (v * t) * A21 + t * t * A22) ->
  forall u v t : R,
    0 <= u * u * (A00 + w * (a * a)) + 2 * (u * v) * (A10 + w * (b * a))
         + 2 * (u * t) * (A20 + w * (c * a))
         + v * v * (A11 + w * (b * b)) + 2 * (v * t) * (A21 + w * (c * b))
         + t * t * (A22 + w * (c * c)).
Proof.
  intros Hw HA u v t.
  pose proof (HA u v t) as H.
  pose proof (Rle_0_sqr (u * a + v * b + t * c)) as Hs. unfold Rsqr in Hs.
  pose proof (Rmult_le_pos _ _ Hw Hs) as Hws.
  replace (u * u * (A00 + w * (a * a)) + 2 * (u * v) * (A10 + w * (b * a))
           + 2 * (u * t) * (A20 + w * (c * a))
           + v * v * (A11 + w * (b * b)) + 2 * (v * t) * (A21 + w * (c * b))
           + t * t * (A22 + w * (c * c)))
    with (u * u * A00 + 2 * (u * v) * A10 + 2 * (u * t) * A20
          + v * v * A11 + 2 * (v * t) * A21 + t * t * A22
          + w * ((u * a + v * b + t * c) * (u * a + v * b + t * c)))
    by ring.
  lra.
Qed.

Lemma weighted_cov_pose_psd (pts : mat) (m0 : vec) (vx vy om : R) :
  length pts = 13%nat ->
  let f := fun p : vec => [get p 0; get p 1; get p 2; vx; vy; om] in
  let W := weighted_cov cov_weights (f m0) (map f pts) in
  forall u v t : R,
    0 <= u * u * get2 W 0 0 + 2 * (u * v) * get2 W 1 0
         + 2 * (u * t) * get2 W 2 0
         + v * v * get2 W 1 1 + 2 * (v * t) * get2 W 2 1
         + t * t * get2 W 2 2.
Proof.
  intros H f W. subst W. explode_list H. subst f.
  repeat match goal with
         | r : vec |- _ =>
             generalize (get r 0) (get r 1) (get r 2); intros ? ? ?; clear r
         end.
  arr_eval.
  do 13 (apply psd_add_outer; [lra|]).
  intros u v t. lra.
Qed.

Lemma recombine_pose_psd (self : t) (sigma : mat) (cmd_vel : Twist)
      (dt : R) :
  length sigma = 13%nat ->
  let W := snd (recombine self sigma cmd_vel dt) in
  forall u v t : R,
    0 <= u * u * get2 W 0 0 + 2 * (u * v) * get2 W 1 0
         + 2 * (u * t) * get2 W 2 0
         + v * v * get2 W 1 1 + 2 * (v * t) * get2 W 2 1
         + t * t * get2 W 2 2.
Proof.
  intros H W. subst W. rewrite recombine_sums by exact H. cbn [snd].
  rewrite propagated_rows, predict_fst.
  apply (weighted_cov_pose_psd _
           [get (state self) 0 +
              (linear_x cmd_vel * cos (get (state self) 2) -
               linear_y cmd_vel * sin (get (state self) 2)) * dt;
            get (state self) 1 +
              (linear_y cmd_vel * cos (get (state self) 2) +
               linear_x cmd_vel * sin (get (state self) 2)) * dt;
            get (state self) 2 + angular_z cmd_vel * dt]).
  unfold propagated. rewrite length_map. exact H.
Qed.

Lemma committed_factorisable (self : t) (L : mat) (cmd_vel : Twist)
      (now dt : R) :
  exists L' : mat,
    np.linalg.cholesky (state_cov (committed self L cmd_vel now dt)) = Ok L'.
Proof.
  unfold committed. cbn [state_cov].
  pose proof (recombine_pose_psd self _ cmd_vel dt
                (sigma_points_length (state self) L)) as Hpsd.
  cbv zeta in Hpsd.
  rewrite (recombine_pose_block self _ cmd_vel dt
             (sigma_points_length (state self) L)).
  revert Hpsd.
  generalize (snd (recombine self (sigma_points (state self) L) cmd_vel dt)).
  intros W. unfold pose_block. generalize (get2 W). intros p Hpsd.
  assert (He : 0 < epsilon) by (unfold epsilon; lra).
  replace (madd _ (mscale epsilon (np.eye 6)))
    with [ [p 0%nat 0%nat + epsilon; p 0%nat 1%nat; p 0%nat 2%nat; 0; 0; 0];
           [p 1%nat 0%nat; p 1%nat 1%nat + epsilon; p 1%nat 2%nat; 0; 0; 0];
           [p 2%nat 0%nat; p 2%nat 1%nat; p 2%nat 2%nat + epsilon; 0; 0; 0];
           [0; 0; 0; epsilon; 0; 0];
           [0; 0; 0; 0; epsilon; 0];
           [0; 0; 0; 0; 0; epsilon] ]
    by (arr_eval; mat_eq ltac:(ring)).
  apply cholesky_pose_plus_eps; assumption.
Qed.

(** ** Invariants of the filter object *)

Lemma callback_well_formed (self : t) (imu_data : Imu)
      (wheel_encoder_data : JointState) (cmd_vel : Twist) :
  well_formed self ->
  well_formed (fst (callback self imu_data wheel_encoder_data cmd_vel)).
Proof.
  intros Hwf.
  destruct (callback self imu_data wheel_encoder_data cmd_vel)
    as [self' out] eqn:Hcb.
  cbn [fst].
  destruct out as [|m|e].
  - unfold callback in Hcb. destruct (prev_time self) as [t0|].
    + destruct (posterior _ _ _ _ _) as [[x P]|e]; discriminate Hcb.
    + injection Hcb as Hcb. subst self'. exact Hwf.
  - destruct (callback_published_inv _ _ _ _ _ _ Hcb)
      as (t0 & L & _ & _ & Hs' & _).
    subst self'.
    destruct (committed_shape self L cmd_vel (stamp imu_data)
                              (stamp imu_data - t0)) as [H1 H2].
    split; [exact H1|]. split; [exact H2|].
    split; [apply committed_symmetric | apply committed_factorisable].
  - unfold callback in Hcb. destruct (prev_time self) as [t0|].
    + destruct (posterior _ _ _ _ _) as [[x P]|e'];
        [discriminate Hcb|].
      injection Hcb as Hcb _. subst self'. exact Hwf.
    + discriminate Hcb.
Qed.

Lemma init_well_formed : well_formed init.
Proof.
  split; [reflexivity|]. split; [shape_tac|].
  split; [exact started_symmetric|].
  exists (scaled_eye6 (sqrt 0.1)). exact cholesky_init.
Qed.

(** X8. [callback] keeps the filter well formed: a state of six entries
    and a symmetric 6x6 covariance with a Cholesky factor stay so
    through every call, whether it publishes, raises or is the first
    one.  In particular the covariance a published step commits can
    always be factored again. *)
Theorem callback_keeps_well_formed (self : t) (imu_data : Imu)
        (wheel_encoder_data : JointState) (cmd_vel : Twist) :
  well_formed self ->
  well_formed (fst (callback self imu_data wheel_encoder_data cmd_vel)).
Proof.
  exact (callback_well_formed self imu_data wheel_encoder_data cmd_vel).
Qed.

(** The second callback of the run. *)
Lemma callback_keeps_well_formed_witness :
  well_formed (fst (callback started (imu_at 1) wheels_still cmd_forward)).
Proof.
  apply (callback_keeps_well_formed started (imu_at 1) wheels_still
                                    cmd_forward).
  exact init_well_formed.
Defined.

(** ** The node over a sequence of samples *)

Lemma fold_feed_well_formed (inputs : list sample) (self : t) :
  well_formed self -> well_formed (fold_left feed inputs self).
Proof.
  revert self. induction inputs as [|s inputs IH]; intros self Hwf.
  - exact Hwf.
  - cbn [fold_left]. apply IH. unfold feed. apply callback_well_formed.
    exact Hwf.
Qed.

Lemma fold_feed_prev_time (inputs : list sample) (self : t) :
  inputs <> [] ->
  exists t0 : R, prev_time (fold_left feed inputs self) = Some t0.
Proof.
  revert self. induction inputs as [|s inputs IH]; intros self Hne.
  - contradiction.
  - cbn [fold_left]. destruct inputs as [|s' inputs'].
    + cbn [fold_left]. unfold feed. rewrite callback_prev_time. eauto.
    + apply IH. discriminate.
Qed.

(** X15. Started by [__init__] and fed any sequence of samples, the
    filter object stays well formed, so no call ever fails in the
    Cholesky factorisation; and once one sample has been received, every
    further sample whose wheel vector fits and whose IMU variance [v]
    has [v + epsilon <> 0] is answered by a published estimate. *)
Theorem run_always_publishes (inputs : list sample) (imu_data : Imu)
        (wheel_encoder_data : JointState) (cmd_vel : Twist) :
  inputs <> [] ->
  wheel_sample_fits wheel_encoder_data ->
  get (angular_velocity_covariance imu_data) 8 + epsilon <> 0 ->
  well_formed (run inputs) /\
  exists (self' : t) (m : Odometry),
    callback (run inputs) imu_data wheel_encoder_data cmd_vel
    = (self', Published m).
Proof.
  intros Hne Hw Hv.
  pose proof (fold_feed_well_formed inputs init init_well_formed) as Hwf.
  split; [exact Hwf|].
  apply callback_publishes_criterion.
  split; [apply fold_feed_prev_time; exact Hne|].
  split; [exact Hw|].
  split; [|exact Hv].
  destruct Hwf as (_ & _ & _ & HL). exact HL.
Qed.

(** One sample at time 0, then one at time 1. *)
Lemma run_always_publishes_witness :
  well_formed (run [(imu_at 0, wheels_still, cmd_forward)]) /\
  exists (self' : t) (m : Odometry),
    callback (run [(imu_at 0, wheels_still, cmd_forward)])
             (imu_at 1) wheels_still cmd_forward
    = (self', Published m).
Proof.
  apply (run_always_publishes [(imu_at 0, wheels_still, cmd_forward)]
                              (imu_at 1) wheels_still cmd_forward).
  - discriminate.
  - left. reflexivity.
  - apply imu_variance_regular.
Defined.

(** ** A wheel sample of the wrong length *)

(** X16. When the wheel sample has neither four speeds nor one, a call
    with a previous timestamp raises [ValueError] before anything is
    computed: the timestamp is recorded, state and covariance are kept
    and nothing is published. *)
Theorem misfit_wheel_sample_raises (self : t) (imu_data : Imu)
        (wheel_encoder_data : JointState) (cmd_vel : Twist) (t0 : R) :
  prev_time self = Some t0 ->
  ~ wheel_sample_fits wheel_encoder_data ->
  callback self imu_data wheel_encoder_data cmd_vel =
    ({| state := state self; state_cov := state_cov self;
        prev_time := Some (stamp imu_data) |}, Raised ValueError).
Proof.
  intros Hp Hw. unfold callback. rewrite Hp.
  change (posterior (set_prev_time self (stamp imu_data)) imu_data
                    wheel_encoder_data cmd_vel (stamp imu_data - t0))
    with (posterior self imu_data wheel_encoder_data cmd_vel
                    (stamp imu_data - t0)).
  rewrite posterior_cases.
  pose proof (measurement_of_cases imu_data wheel_encoder_data) as Hc.
  unfold wheel_sample_fits in Hw.
  destruct wheel_encoder_data as [v]. cbn [velocity] in *.
  destruct v as [|w0 [|w1 [|w2 [|w3 [|w4 v]]]]];
    try (exfalso; apply Hw; simpl; tauto);
    rewrite Hc; reflexivity.
Qed.

(** Three wheel speeds. *)
Lemma misfit_wheel_sample_raises_witness :
  callback started (imu_at 1) {| velocity := [1; 2; 3] |} cmd_forward =
    ({| state := state started; state_cov := state_cov started;
        prev_time := Some (stamp (imu_at 1)) |}, Raised ValueError).
Proof.
  apply (misfit_wheel_sample_raises
           started (imu_at 1) {| velocity := [1; 2; 3] |} cmd_forward 0).
  - reflexivity.
  - intros [H|H]; discriminate H.
Defined.

(** Two different measurements at time 1. *)
Lemma callback_ignores_measurement_witness :
  callback started (imu_at 1) wheels_still cmd_forward =
  callback started
           {| stamp := 1; angular_velocity_z := 5;
              angular_velocity_covariance := [0; 0; 0; 0; 0; 0; 0; 0; 2] |}
           {| velocity := [13; 13; 13; 13] |} cmd_forward.
Proof.
  apply (callback_ignores_measurement
           started (imu_at 1)
           {| stamp := 1; angular_velocity_z := 5;
              angular_velocity_covariance := [0; 0; 0; 0; 0; 0; 0; 0; 2] |}
           wheels_still {| velocity := [13; 13; 13; 13] |} cmd_forward).
  - reflexivity.
  - left. reflexivity.
  - left. reflexivity.
  - apply imu_variance_regular.
  - unfold epsilon, get. simpl. lra.
Defined.

(** The initial covariance. *)
Lemma cholesky_factor_witness :
  shape 6 6 (scaled_eye6 (sqrt 0.1)) /\
  matmul (scaled_eye6 (sqrt 0.1)) (transpose (scaled_eye6 (sqrt 0.1)))
    = state_cov init /\
  (forall i j : nat, (i < j < 6)%nat ->
     get2 (scaled_eye6 (sqrt 0.1)) i j = 0) /\
  (forall i : nat, (i < 6)%nat -> 0 < get2 (scaled_eye6 (sqrt 0.1)) i i).
Proof.
  apply (cholesky_factor (state_cov init) (scaled_eye6 (sqrt 0.1))).
  - split; [reflexivity | repeat constructor].
  - exact started_symmetric.
  - exact cholesky_init.
Defined.
